(** * Webhook ingestion and status reconciliation of the fiat-ramp service

    A shallow embedding of the Go code that receives Onramper webhooks
    (package [onramper]), maps statuses (package [utils]) and talks to the
    Hasura store (package [database]), together with the parts of the Go
    runtime and of gin that this code calls.

    Conventions.
    - A Go [string] is a Rocq [string] (a sequence of 8-bit characters); a
      Go [[]byte] is a [list byte].
    - A Go result pair [(v, err)] is a Rocq pair whose second component is
      [None] for a nil error and [Some msg] for an error with text [msg].
    - The functions of package [strings] work on the bytes of the string.
      Case mapping is that of ASCII and leaves bytes above 127 alone: on
      ASCII input this is what Go computes.  White space is that of
      [unicode.IsSpace], read in UTF-8 as Go reads it. *)

From Stdlib Require Import ZArith List Strings.String Strings.Ascii Strings.Byte Lia Bool.
From stdpp Require Import base option gmap strings.
Import ListNotations.
Local Open Scope string_scope.
Local Open Scope list_scope.
Local Open Scope Z_scope.

(** ** Package [strings] *)
Module strings.

Definition ascii_code (c : ascii) : Z := Z.of_N (N_of_ascii c).

(** ['A' <= c && c <= 'Z'] *)
Definition is_upper (c : ascii) : bool :=
  (65 <=? ascii_code c) && (ascii_code c <=? 90).

Definition is_lower (c : ascii) : bool :=
  (97 <=? ascii_code c) && (ascii_code c <=? 122).

(** [c += 'a' - 'A'] on an upper-case letter. *)
Definition lower_byte (c : ascii) : ascii :=
  if is_upper c then ascii_of_N (Z.to_N (ascii_code c + 32)) else c.

Definition upper_byte (c : ascii) : ascii :=
  if is_lower c then ascii_of_N (Z.to_N (ascii_code c - 32)) else c.

Fixpoint ToLower (s : string) : string :=
  match s with
  | EmptyString => EmptyString
  | String c r => String (lower_byte c) (ToLower r)
  end.

Fixpoint ToUpper (s : string) : string :=
  match s with
  | EmptyString => EmptyString
  | String c r => String (upper_byte c) (ToUpper r)
  end.

(** The ASCII white space of [asciiSpace]: tab, line feed, vertical tab,
    form feed, carriage return and space. *)
Definition is_space (c : ascii) : bool :=
  let n := ascii_code c in
  (n =? 9) || (n =? 10) || (n =? 11) || (n =? 12) || (n =? 13) || (n =? 32).

(** The white space of [unicode.IsSpace] above ASCII, as the bytes of its
    UTF-8 encoding.  Two bytes: U+0085 and U+00A0. *)
Definition is_space2 (a b : ascii) : bool :=
  (ascii_code a =? 194) && ((ascii_code b =? 133) || (ascii_code b =? 160)).

(** Three bytes: U+1680, U+2000 to U+200A, U+2028, U+2029, U+202F, U+205F
    and U+3000. *)
Definition is_space3 (a b c : ascii) : bool :=
  let x := ascii_code a in
  let y := ascii_code b in
  let z := ascii_code c in
  ((x =? 225) && (y =? 154) && (z =? 128))
  || ((x =? 226) && (y =? 128)
      && (((128 <=? z) && (z <=? 138)) || (z =? 168) || (z =? 169) || (z =? 175)))
  || ((x =? 226) && (y =? 129) && (z =? 159))
  || ((x =? 227) && (y =? 128) && (z =? 128)).

(** [TrimLeftFunc(s, unicode.IsSpace)]: the runes are decoded from the
    left; bytes that are not the encoding of a rune are not white space. *)
Fixpoint TrimLeft (s : string) : string :=
  match s with
  | EmptyString => EmptyString
  | String a r =>
      if is_space a then TrimLeft r
      else
        match r with
        | String b r2 =>
            if is_space2 a b then TrimLeft r2
            else
              match r2 with
              | String c r3 => if is_space3 a b c then TrimLeft r3 else s
              | EmptyString => s
              end
        | EmptyString => s
        end
  end.

Fixpoint rev_append (s acc : string) : string :=
  match s with
  | EmptyString => acc
  | String c r => rev_append r (String c acc)
  end.

Definition reverse (s : string) : string := rev_append s EmptyString.

(** The same from the right, on the string read backwards: the last byte
    comes first. *)
Fixpoint TrimLeft_reversed (s : string) : string :=
  match s with
  | EmptyString => EmptyString
  | String c r =>
      if is_space c then TrimLeft_reversed r
      else
        match r with
        | String b r2 =>
            if is_space2 b c then TrimLeft_reversed r2
            else
              match r2 with
              | String a r3 => if is_space3 a b c then TrimLeft_reversed r3 else s
              | EmptyString => s
              end
        | EmptyString => s
        end
  end.

(** [TrimRightFunc(s, unicode.IsSpace)]. *)
Definition TrimRight (s : string) : string := reverse (TrimLeft_reversed (reverse s)).

(** [TrimSpace]: its loops over ASCII are a fast path of
    [TrimFunc(s, unicode.IsSpace)]. *)
Definition TrimSpace (s : string) : string := TrimRight (TrimLeft s).

Fixpoint HasPrefix (s prefix : string) : bool :=
  match prefix, s with
  | EmptyString, _ => true
  | String p prefix', String c s' =>
      if Ascii.eqb p c then HasPrefix s' prefix' else false
  | String _ _, EmptyString => false
  end.

(** [Contains s substr]: [substr] occurs at some position of [s]. *)
Fixpoint Contains (s substr : string) : bool :=
  HasPrefix s substr ||
  match s with
  | EmptyString => false
  | String _ r => Contains r substr
  end.

End strings.

(** ** Package [crypto/sha256]: the block function and the digest *)
Module sha256.

Definition u32 (x : Z) : Z := x mod 4294967296.

(** [bits.RotateLeft32(x, -n)] *)
Definition rotr (n x : Z) : Z :=
  Z.lor (Z.shiftr x n) (u32 (Z.shiftl x (32 - n))).

(** [^x] on a [uint32] *)
Definition not32 (x : Z) : Z := Z.lxor x 4294967295.

(** The table [_K] of [sha256block.go], in decimal. *)
Definition _K : list Z := [
  1116352408; 1899447441; 3049323471; 3921009573;
  961987163; 1508970993; 2453635748; 2870763221;
  3624381080; 310598401; 607225278; 1426881987;
  1925078388; 2162078206; 2614888103; 3248222580;
  3835390401; 4022224774; 264347078; 604807628;
  770255983; 1249150122; 1555081692; 1996064986;
  2554220882; 2821834349; 2952996808; 3210313671;
  3336571891; 3584528711; 113926993; 338241895;
  666307205; 773529912; 1294757372; 1396182291;
  1695183700; 1986661051; 2177026350; 2456956037;
  2730485921; 2820302411; 3259730800; 3345764771;
  3516065817; 3600352804; 4094571909; 275423344;
  430227734; 506948616; 659060556; 883997877;
  958139571; 1322822218; 1537002063; 1747873779;
  1955562222; 2024104815; 2227730452; 2361852424;
  2428436474; 2756734187; 3204031479; 3329325298 ].

(** [init0] to [init7], in decimal. *)
Definition init : list Z := [
  1779033703; 3144134277; 1013904242; 2773480762;
  1359893119; 2600822924; 528734635; 1541459225 ].

Definition byteZ (b : byte) : Z := Z.of_N (Byte.to_N b).

Definition Zbyte (z : Z) : byte :=
  match Byte.of_N (Z.to_N (z mod 256)) with
  | Some b => b
  | None => x00
  end.

Definition at_ (l : list Z) (i : nat) : Z := nth i l 0.

(** [w[i] = p[j]<<24 | p[j+1]<<16 | p[j+2]<<8 | p[j+3]] for the sixteen
    words of a chunk. *)
Fixpoint load_words (n : nat) (p : list Z) : list Z :=
  match n, p with
  | S n', b0 :: b1 :: b2 :: b3 :: r =>
      Z.lor (Z.lor (Z.lor (Z.shiftl b0 24) (Z.shiftl b1 16)) (Z.shiftl b2 8)) b3
      :: load_words n' r
  | _, _ => []
  end.

(** The message schedule, [w[16..63]]; [w] holds the words computed so
    far and [i] is its length. *)
Fixpoint schedule (steps : nat) (i : nat) (w : list Z) : list Z :=
  match steps with
  | O => w
  | S steps' =>
      let v1 := at_ w (i - 2) in
      let t1 := Z.lxor (Z.lxor (rotr 17 v1) (rotr 19 v1)) (Z.shiftr v1 10) in
      let v2 := at_ w (i - 15) in
      let t2 := Z.lxor (Z.lxor (rotr 7 v2) (rotr 18 v2)) (Z.shiftr v2 3) in
      let wi := u32 (t1 + at_ w (i - 7) + t2 + at_ w (i - 16)) in
      schedule steps' (S i) (w ++ [wi])
  end.

Record regs := Regs { ra : Z; rb : Z; rc : Z; rd : Z; re : Z; rf : Z; rg : Z; rh : Z }.

Definition round (r : regs) (k w : Z) : regs :=
  let '(Regs a b c d e f g h) := r in
  let t1 := u32 (h + Z.lxor (Z.lxor (rotr 6 e) (rotr 11 e)) (rotr 25 e)
                   + Z.lxor (Z.land e f) (Z.land (not32 e) g) + k + w) in
  let t2 := u32 (Z.lxor (Z.lxor (rotr 2 a) (rotr 13 a)) (rotr 22 a)
                   + Z.lxor (Z.lxor (Z.land a b) (Z.land a c)) (Z.land b c)) in
  Regs (u32 (t1 + t2)) a b c (u32 (d + t1)) e f g.

Fixpoint rounds (r : regs) (ks ws : list Z) : regs :=
  match ks, ws with
  | k :: ks', w :: ws' => rounds (round r k w) ks' ws'
  | _, _ => r
  end.

(** One iteration of the loop of [blockGeneric] on the chunk [p]. *)
Definition block (h : list Z) (p : list Z) : list Z :=
  let w := schedule 48 16 (load_words 16 p) in
  let r0 := Regs (at_ h 0) (at_ h 1) (at_ h 2) (at_ h 3)
                 (at_ h 4) (at_ h 5) (at_ h 6) (at_ h 7) in
  let '(Regs a b c d e f g hh) := rounds r0 _K w in
  [ u32 (at_ h 0 + a); u32 (at_ h 1 + b); u32 (at_ h 2 + c); u32 (at_ h 3 + d);
    u32 (at_ h 4 + e); u32 (at_ h 5 + f); u32 (at_ h 6 + g); u32 (at_ h 7 + hh) ].

Fixpoint blocks (n : nat) (h : list Z) (p : list Z) : list Z :=
  match n with
  | O => h
  | S n' => blocks n' (block h (firstn 64 p)) (skipn 64 p)
  end.

(** Big-endian bytes of the [n] low bytes of [x]. *)
Fixpoint be_bytes (n : nat) (x : Z) : list Z :=
  match n with
  | O => []
  | S n' => (Z.shiftr x (8 * Z.of_nat n')) mod 256 :: be_bytes n' x
  end.

(** The padding written by [checkSum]: [0x80], zeros up to 56 modulo 64,
    then the length in bits on eight bytes. *)
Definition pad (len : Z) : list Z :=
  let t := len mod 64 in
  let zeros := if t <? 56 then 56 - t - 1 else 64 + 56 - t - 1 in
  128 :: repeat 0 (Z.to_nat zeros) ++ be_bytes 8 (8 * len).

Definition Sum256Z (data : list Z) : list Z :=
  let p := data ++ pad (Z.of_nat (length data)) in
  let h := blocks (length p / 64) init p in
  flat_map (be_bytes 4) h.

Definition Sum256 (data : list byte) : list byte :=
  map Zbyte (Sum256Z (map byteZ data)).

Definition BlockSize : nat := 64.

End sha256.

(** ** Package [crypto/subtle] and [crypto/hmac] *)
Module subtle.

(** [ConstantTimeByteEq(x, y)]: 1 when the bytes are equal, 0 otherwise. *)
Definition ConstantTimeByteEq (x y : Z) : Z :=
  Z.shiftr (sha256.u32 (Z.lxor x y - 1)) 31.

(** [v |= x[i] ^ y[i]] *)
Definition or_xor (v : Z) (p : byte * byte) : Z :=
  Z.lor v (Z.lxor (sha256.byteZ (fst p)) (sha256.byteZ (snd p))).

(** [ConstantTimeCompare]: 0 at once when the lengths differ; otherwise
    the exclusive-or of every pair of bytes is accumulated with [|=] and
    the accumulator is compared with 0. *)
Definition ConstantTimeCompare (x y : list byte) : Z :=
  if negb (length x =? length y)%nat then 0
  else
    let v := fold_left or_xor (combine x y) 0 in
    ConstantTimeByteEq v 0.

End subtle.

Module hmac.

Definition xor_pad (c : Z) (key : list byte) : list byte :=
  map (fun b => sha256.Zbyte (Z.lxor (sha256.byteZ b) c)) key.

(** [hmac.New(sha256.New, key)] followed by [Write(msg)] and [Sum(nil)]:
    a key longer than the block is hashed first, the key is copied into a
    zeroed block, and the digest is
    [H(opad ++ H(ipad ++ msg))]. *)
Definition Sum (key msg : list byte) : list byte :=
  let key := if (sha256.BlockSize <? length key)%nat then sha256.Sum256 key else key in
  let blk := key ++ repeat x00 (sha256.BlockSize - length key) in
  let ipad := xor_pad 0x36 blk in
  let opad := xor_pad 0x5c blk in
  sha256.Sum256 (opad ++ sha256.Sum256 (ipad ++ msg)).

(** [hmac.Equal] *)
Definition Equal (mac1 mac2 : list byte) : bool :=
  subtle.ConstantTimeCompare mac1 mac2 =? 1.

End hmac.

(** ** Package [encoding/hex] *)
Module hex.

Definition hextable : string := "0123456789abcdef".

Definition digit (n : Z) : ascii :=
  match String.get (Z.to_nat n) hextable with
  | Some c => c
  | None => "0"%char
  end.

Fixpoint EncodeToString (src : list byte) : string :=
  match src with
  | [] => EmptyString
  | b :: r =>
      let v := sha256.byteZ b in
      String (digit (Z.shiftr v 4)) (String (digit (Z.land v 15)) (EncodeToString r))
  end.

End hex.

(** A Go [error]: [None] is [nil], [Some msg] carries the text of [Error()]. *)
Definition error : Type := option string.

Definition bytes (s : string) : list byte := list_byte_of_string s.

(** ** Package [models] *)
Module models.

(** A [float64], kept as its 64-bit pattern: the code only copies it. *)
Definition float64 : Type := Z.

(** A [time.Time], in nanoseconds since the epoch. *)
Definition Time : Type := Z.

Record WebhookPayload := {
  Country : string;
  InAmount : float64;
  Onramp : string;
  OnrampTransactionID : string;
  OutAmount : float64;
  PaymentMethod : string;
  PartnerContext : string;
  SourceCurrency : string;
  Status : string;
  StatusDate : Time;
  TargetCurrency : string;
  TransactionID : string;
  TransactionType : string;
  TransactionHash : string;
  WalletAddress : string
}.

(** The zero value of the struct, as [var payload models.WebhookPayload]. *)
Definition zero : WebhookPayload :=
  {| Country := ""; InAmount := 0; Onramp := ""; OnrampTransactionID := "";
     OutAmount := 0; PaymentMethod := ""; PartnerContext := "";
     SourceCurrency := ""; Status := ""; StatusDate := 0; TargetCurrency := "";
     TransactionID := ""; TransactionType := ""; TransactionHash := "";
     WalletAddress := "" |}.

End models.

(** ** Package [utils] *)
Module utils.

Definition MapTransactionStatus (input : string) : string :=
  let input := strings.ToLower input in
  if strings.Contains input "pending"
     || strings.Contains input "in_progress"
     || strings.Contains input "processing" then "pending"
  else if strings.Contains input "completed"
          || strings.Contains input "confirmed" then "completed"
  else if String.eqb input "paid" then "paid"
  else if strings.Contains input "failed"
          || strings.Contains input "error" then "failed"
  else "new".

(** The five canonical transaction states. *)
Definition canonical_states : list string :=
  ["pending"; "completed"; "paid"; "failed"; "new"].

(** The lower-cased input matches one of the patterns that have a case of
    their own in [MapTransactionStatus]. *)
Definition recognized (lowered : string) : bool :=
  strings.Contains lowered "pending"
  || strings.Contains lowered "in_progress"
  || strings.Contains lowered "processing"
  || strings.Contains lowered "completed"
  || strings.Contains lowered "confirmed"
  || String.eqb lowered "paid"
  || strings.Contains lowered "failed"
  || strings.Contains lowered "error".

End utils.

(** ** The store behind the GraphQL endpoint

    The three operations that package [database] sends, executed on the two
    tables they name.  [fiat_transactions] has the unique key
    [fiat_transactions_uk_transaction_id] and is a map from
    [transaction_id]; [id_verification_sessions] has the unique key
    [id_verification_sessions_user_id_key] and is a map from [user_id] to
    the [status] column, the only column of that table the code reads.
    The types of the columns and the other constraints of the tables are
    not modelled; a request that the engine refuses is a request that
    fails, which [reachable] stands for, with the error text [refusal].

    The engine puts the result of an operation in the field of the answer
    that bears the name of the operation: an object or [null] for
    [insert_..._one], a list of objects for a query on a table. *)
Module hasura.

Record fiat_transaction := {
  user_id : string;
  country : string;
  in_amount : models.float64;
  out_amount : models.float64;
  payment_method : string;
  source_currency : string;
  target_currency : string;
  transaction_type : string;
  transaction_status : string;
  transaction_hash : string;
  partner_context : string;
  wallet_address : string;
  onramp_transaction_id : string;
  transaction_id : string
}.

Record Store := {
  (** whether a request is executed: it reaches the engine and is accepted *)
  reachable : bool;
  (** the text of the error that the client returns when it is not *)
  refusal : string;
  fiat_transactions : gmap string fiat_transaction;
  id_verification_sessions : gmap string string
}.

Definition set_fiat_transactions (t : gmap string fiat_transaction) (s : Store) : Store :=
  {| reachable := reachable s; refusal := refusal s; fiat_transactions := t;
     id_verification_sessions := id_verification_sessions s |}.

Definition set_id_verification_sessions (v : gmap string string) (s : Store) : Store :=
  {| reachable := reachable s; refusal := refusal s;
     fiat_transactions := fiat_transactions s;
     id_verification_sessions := v |}.

(** The value of the result field in the [data] of an answer. *)
Inductive Raw (A : Type) : Type :=
| JNull
| JObject (row : A)
| JList (rows : list A).
Arguments JNull {A}.
Arguments JObject {A} row.
Arguments JList {A} rows.

(** The answer of an [insert_..._one]: the row, or [null] when no row was
    affected. *)
Definition one {A} (run : Store -> Store * option A) (s : Store) : Store * Raw A :=
  let (s', r) := run s in
  (s', match r with Some row => JObject row | None => JNull end).

(** The answer of a query on a table: the list of the rows selected. *)
Definition many {A} (run : Store -> Store * list A) (s : Store) : Store * Raw A :=
  let (s', rows) := run s in (s', JList rows).

(** A row of empty columns: the zero value of a result struct. *)
Definition zero_row : fiat_transaction :=
  {| user_id := ""; country := ""; in_amount := 0; out_amount := 0;
     payment_method := ""; source_currency := ""; target_currency := "";
     transaction_type := ""; transaction_status := ""; transaction_hash := "";
     partner_context := ""; wallet_address := ""; onramp_transaction_id := "";
     transaction_id := "" |}.

(** [on_conflict] of [UpsertFiatTransaction]: the columns of
    [update_columns] are taken from the new object, [user_id] and
    [transaction_id] stay those of the stored row. *)
Definition update_columns (old new : fiat_transaction) : fiat_transaction :=
  {| user_id := user_id old;
     country := country new;
     in_amount := in_amount new;
     out_amount := out_amount new;
     payment_method := payment_method new;
     source_currency := source_currency new;
     target_currency := target_currency new;
     transaction_type := transaction_type new;
     transaction_status := transaction_status new;
     transaction_hash := transaction_hash new;
     partner_context := partner_context new;
     wallet_address := wallet_address new;
     onramp_transaction_id := onramp_transaction_id new;
     transaction_id := transaction_id old |}.

(** [insert_terrace_schema_fiat_transactions_one] with its [on_conflict];
    the row of the answer is the inserted or updated one. *)
Definition UpsertFiatTransaction (object : fiat_transaction) (s : Store)
  : Store * option fiat_transaction :=
  let row :=
    match fiat_transactions s !! transaction_id object with
    | None => object
    | Some old => update_columns old object
    end in
  (set_fiat_transactions (<[transaction_id object := row]> (fiat_transactions s)) s,
   Some row).

(** The [where] of [GetUserIDFromTransaction]: an [_or] of three
    equalities. *)
Definition matches (tx onramp wallet : string) (r : fiat_transaction) : bool :=
  String.eqb (transaction_id r) tx
  || String.eqb (onramp_transaction_id r) onramp
  || String.eqb (wallet_address r) wallet.

(** [limit: 1]: the list of the first row that matches, empty if none
    does. *)
Definition GetUserIDFromTransaction (tx onramp wallet : string) (s : Store)
  : Store * list fiat_transaction :=
  (s, firstn 1 (List.filter (matches tx onramp wallet)
                            (snd <$> map_to_list (fiat_transactions s)))).

(** [insert_terrace_schema_id_verification_sessions_one] with
    [on_conflict ... where: {status: {_neq: APPROVED}}]: a new user gets a
    row; a stored row is updated only when its status is not
    [APPROVED], and otherwise no row is affected and the answer is
    [null]. *)
Definition UpsertKYCStatus (user new_status : string) (s : Store)
  : Store * option string :=
  match id_verification_sessions s !! user with
  | None =>
      (set_id_verification_sessions (<[user := new_status]> (id_verification_sessions s)) s,
       Some new_status)
  | Some old =>
      if negb (String.eqb old "APPROVED")
      then (set_id_verification_sessions
              (<[user := new_status]> (id_verification_sessions s)) s,
            Some new_status)
      else (s, None)
  end.

End hasura.

(** ** Package [gin]: the response writer of a request context *)
Module gin.

(** [gin.H] with string values, as the handler builds it. *)
Definition H : Type := list (string * string).

Record ResponseWriter := {
  status : Z;
  (** [Written()]: the header, and with it the status, has been sent *)
  written : bool;
  body : list H
}.

(** A new context: [defaultStatus] is 200 and nothing is written. *)
Definition reset : ResponseWriter :=
  {| status := 200; written := false; body := [] |}.

(** [WriteHeader]: once the header is written another code is refused
    (gin prints a warning). *)
Definition WriteHeader (code : Z) (w : ResponseWriter) : ResponseWriter :=
  if (0 <? code) && negb (status w =? code) then
    if written w then w
    else {| status := code; written := written w; body := body w |}
  else w.

(** [c.JSON(code, obj)]: sets the status and renders the object, which
    sends the header on the first write. *)
Definition JSON (code : Z) (obj : H) (w : ResponseWriter) : ResponseWriter :=
  let w := WriteHeader code w in
  {| status := status w; written := true; body := body w ++ [obj] |}.

(** What [io.ReadAll(c.Request.Body)] gives, and the request headers. *)
Record Request := {
  Body : list byte * error;
  Header : gmap string string
}.

(** [c.Request.Header.Get(key)] for a key in canonical form. *)
Definition Header_Get (r : Request) (key : string) : string :=
  default "" (Header r !! key).

End gin.

(** ** Effects

    The code runs against a logger, the store and the response writer of
    the current request.  [trace] records, oldest first, every call that
    leaves the function: a log line, a decoding of the request body, a
    GraphQL request, a response write. *)
Inductive Event :=
| EvLog (level msg : string)
| EvUnmarshal (data : list byte)
| EvExecRaw (operation : string)
| EvJSON (code : Z) (obj : gin.H).

Record State := {
  store : hasura.Store;
  writer : gin.ResponseWriter;
  trace : list Event
}.

(** The body of the request is handed to the JSON decoder. *)
Definition is_parse (e : Event) : bool :=
  match e with EvUnmarshal _ => true | _ => false end.

(** A request is sent to the store. *)
Definition is_store_call (e : Event) : bool :=
  match e with EvExecRaw _ => true | _ => false end.

Definition M (A : Type) : Type := State -> A * State.

#[global] Instance M_ret : MRet M := fun A a s => (a, s).

#[global] Instance M_bind : MBind M :=
  fun A B k m s => let (a, s') := m s in k a s'.

Definition ret {A} (a : A) : M A := mret a.

Definition modify (f : State -> State) : M unit := fun s => (tt, f s).

Definition emit (e : Event) : M unit :=
  modify (fun s => {| store := store s; writer := writer s; trace := trace s ++ [e] |}).

Definition Logger_Error (msg : string) : M unit := emit (EvLog "error" msg).
Definition Logger_Warn (msg : string) : M unit := emit (EvLog "warn" msg).
Definition Logger_Info (msg : string) : M unit := emit (EvLog "info" msg).
Definition Logger_Debug (msg : string) : M unit := emit (EvLog "debug" msg).

Definition c_JSON (code : Z) (obj : gin.H) : M unit :=
  emit (EvJSON code obj) ;;
  modify (fun s => {| store := store s; writer := gin.JSON code obj (writer s);
                      trace := trace s |}).

(** [json.Unmarshal(body, &payload)] with the decoder [dec]. *)
Definition json_Unmarshal (dec : list byte -> models.WebhookPayload * error)
    (data : list byte) : M (models.WebhookPayload * error) :=
  emit (EvUnmarshal data) ;; ret (dec data).

(** The engine runs the operation on the store when it is reached, and the
    request fails without effect otherwise. *)
Definition engine {A} (run : hasura.Store -> hasura.Store * hasura.Raw A)
    : M (hasura.Raw A * error) :=
  fun s =>
    if hasura.reachable (store s) then
      let (st', raw) := run (store s) in
      ((raw, None), {| store := st'; writer := writer s; trace := trace s |})
    else ((hasura.JNull, Some (hasura.refusal (store s))), s).

(** [c.client.ExecRaw]: the raw [data] of the answer, or an error. *)
Definition ExecRaw {A} (operation : string)
    (run : hasura.Store -> hasura.Store * hasura.Raw A)
    : M (hasura.Raw A * error) :=
  emit (EvExecRaw operation) ;; engine run.

(** [json.Unmarshal(raw, &result)] where the result field is a struct whose
    zero value is [zero]: [null] leaves the zero value, an object fills the
    struct, and a list is refused.  The error text is that of
    [encoding/json], without the name of the field. *)
Definition Unmarshal_struct {A} (zero : A) (raw : hasura.Raw A) : A * error :=
  match raw with
  | hasura.JNull => (zero, None)
  | hasura.JObject row => (row, None)
  | hasura.JList _ => (zero, Some "json: cannot unmarshal array into Go struct field")
  end.

(** ** Package [database] *)
Module database.

Definition UpsertOnramperTransaction (onrampTx : models.WebhookPayload) (userID : string)
  : M (string * error) :=
  let object :=
    {| hasura.user_id := userID;
       hasura.country := models.Country onrampTx;
       hasura.in_amount := models.InAmount onrampTx;
       hasura.out_amount := models.OutAmount onrampTx;
       hasura.payment_method := models.PaymentMethod onrampTx;
       hasura.source_currency := models.SourceCurrency onrampTx;
       hasura.target_currency := models.TargetCurrency onrampTx;
       hasura.transaction_type := strings.ToUpper (models.TransactionType onrampTx);
       hasura.transaction_status := models.Status onrampTx;
       hasura.transaction_hash := models.TransactionHash onrampTx;
       hasura.partner_context := models.PartnerContext onrampTx;
       hasura.wallet_address := models.WalletAddress onrampTx;
       hasura.onramp_transaction_id := models.OnrampTransactionID onrampTx;
       hasura.transaction_id := models.TransactionID onrampTx |} in
  '(raw, err) ← ExecRaw "UpsertFiatTransaction"
                   (hasura.one (hasura.UpsertFiatTransaction object));
  match err with
  | Some e => ret ("", Some ("failed to execute mutation: " +:+ e))
  | None =>
      let '(result, err) := Unmarshal_struct hasura.zero_row raw in
      match err with
      | Some e => ret ("", Some e)
      | None =>
          if String.eqb (hasura.user_id result) "" then
            ret ("", Some "database returned empty user ID")
          else ret (hasura.user_id result, None)
      end
  end.

Definition GetUserIDFromTransaction (transactionID onrampTxID walletAddress : string)
  : M (string * error) :=
  '(raw, err) ← ExecRaw "GetUserIDFromTransaction"
                   (hasura.many (hasura.GetUserIDFromTransaction
                                   transactionID onrampTxID walletAddress));
  match err with
  | Some _ => ret ("", Some "failed to query the database")
  | None =>
      let '(result, err) := Unmarshal_struct hasura.zero_row raw in
      match err with
      | Some _ => ret ("", Some "unable to execute Query")
      | None =>
          if String.eqb (hasura.user_id result) "" then
            ret ("", Some "no transaction found")
          else ret (hasura.user_id result, None)
      end
  end.

Definition UpdateKYCStatus (userID newStatus : string) : M (string * error) :=
  '(raw, err) ← ExecRaw "UpsertKYCStatus"
                   (hasura.one (hasura.UpsertKYCStatus userID newStatus));
  match err with
  | Some e => ret (newStatus, Some ("graphql execution failed: " +:+ e))
  | None =>
      let '(result_Status, err) := Unmarshal_struct "" raw in
      match err with
      | Some e => ret (newStatus, Some ("response parsing failed: " +:+ e))
      | None =>
          if String.eqb result_Status "" then
            ret (newStatus, Some "empty status in response")
          else
            Logger_Debug "KYC operation processed" ;;
            ret (result_Status, None)
      end
  end.

End database.

(** ** Package [onramper]: the webhook side of [OnramperManager] *)
Module onramper.

(** The fields of the manager that the webhook code reads; its logger and
    its database client act on the [State]. *)
Record OnramperManager := { WebhookSecret : string }.

(** [context.Background().Err()] is always nil. *)
Definition ctx_Err : error := None.

Definition ValidateSignature (receivedSignature : string) (payload : list byte)
    (secret : string) : M bool :=
  if String.eqb secret "" then
    Logger_Error "Webhook secret is missing" ;;
    ret false
  else
    let expectedMAC := hex.EncodeToString (hmac.Sum (bytes secret) payload) in
    ret (hmac.Equal (bytes receivedSignature) (bytes expectedMAC)).

(** [dec] is the decoder of [encoding/json] for [models.WebhookPayload].
    The body that [io.ReadAll] consumed is put back on the request for
    later readers, which changes nothing below. *)
Definition WebhookHandler (dec : list byte -> models.WebhookPayload * error)
    (w : OnramperManager) (c : gin.Request) : M unit :=
  let '(body, err) := gin.Body c in
  match err with
  | Some _ =>
      Logger_Error "Failed to read webhook body" ;;
      c_JSON 400 [("error", "Invalid request")]
  | None =>
      valid ← ValidateSignature (gin.Header_Get c "X-Onramper-Webhook-Signature")
                                body (WebhookSecret w);
      if negb valid then
        Logger_Error "Invalid webhook signature" ;;
        c_JSON 401 [("error", "Invalid signature")]
      else
        '(payload, err) ← json_Unmarshal dec body;
        (if err is Some _ then
           Logger_Error "Failed to store webhook payload in Database" ;;
           c_JSON 500 [("error", "Database error")]
         else ret tt) ;;
        (if err is Some _ then
           Logger_Error "Failed to update KYC status"
         else ret tt) ;;
        c_JSON 200 [("message", "Webhook received")]
  end.

(** The body of [UpdateTransaction] below the declaration
    [var userID string]; the parameter [userID] is the value of that
    variable. *)
Definition UpdateTransaction_body (userID : string) (payload : models.WebhookPayload)
  : M (string * error) :=
  let onrampTx :=
    {| models.Country := models.Country payload;
       models.InAmount := models.InAmount payload;
       models.Onramp := models.Onramp payload;
       models.OnrampTransactionID := models.OnrampTransactionID payload;
       models.OutAmount := models.OutAmount payload;
       models.PaymentMethod := models.PaymentMethod payload;
       models.PartnerContext := models.PartnerContext payload;
       models.SourceCurrency := models.SourceCurrency payload;
       models.Status := models.Status payload;
       models.StatusDate := models.StatusDate payload;
       models.TargetCurrency := models.TargetCurrency payload;
       models.TransactionHash := models.TransactionHash payload;
       models.TransactionID := models.TransactionID payload;
       models.TransactionType := models.TransactionType payload;
       models.WalletAddress := models.WalletAddress payload |} in
  if String.eqb userID "" then
    ret ("", Some "user ID is required")
  else if String.eqb (models.TransactionID onrampTx) "" then
    ret ("", Some "user ID is required")
  else if String.eqb (models.Status onrampTx) "" then
    ret ("", Some "transaction status is required")
  else if ctx_Err is Some e then
    ret ("", Some ("operation cancelled: " +:+ e))
  else
    '(returnedUserID, err) ← database.UpsertOnramperTransaction onrampTx userID;
    match err with
    | Some e =>
        Logger_Error "Failed to store transaction" ;;
        ret (returnedUserID, Some ("failed to store transaction: " +:+ e))
    | None =>
        Logger_Info "Transaction stored successfully" ;;
        ret (returnedUserID, None)
    end.

(** [var userID string] leaves the variable at the empty string, and
    nothing assigns it. *)
Definition UpdateTransaction (payload : models.WebhookPayload) : M (string * error) :=
  UpdateTransaction_body "" payload.

(** The [switch] of [HandleKYCWebhook] on the lower-cased status; [None]
    is its [default] case. *)
Definition kyc_of_status (lowered : string) : option string :=
  if String.eqb lowered "completed" then Some "APPROVED"
  else if String.eqb lowered "failed" || String.eqb lowered "canceled" then Some "REJECTED"
  else if String.eqb lowered "pending" then Some "PENDING"
  else None.

(** [payload] is a pointer in the source: [None] is the nil pointer. *)
Definition HandleKYCWebhook (payload : option models.WebhookPayload) : M (string * error) :=
  match payload with
  | None => ret ("", Some "webhook payload cannot be nil")
  | Some payload =>
      let transactionID := strings.TrimSpace (models.TransactionID payload) in
      let onrampTxID := strings.TrimSpace (models.OnrampTransactionID payload) in
      let walletAddress := strings.TrimSpace (models.WalletAddress payload) in
      let rawStatus := strings.TrimSpace (models.Status payload) in
      if String.eqb transactionID "" && String.eqb onrampTxID ""
         && String.eqb walletAddress "" then
        Logger_Error "Missing transaction identifiers in webhook" ;;
        ret ("", Some "transaction identifiers required")
      else
        '(userID, err) ← database.GetUserIDFromTransaction transactionID onrampTxID
                                                           walletAddress;
        match err with
        | Some e =>
            Logger_Error "User resolution failed" ;;
            ret ("", Some ("user resolution failed: " +:+ e))
        | None =>
            match kyc_of_status (strings.ToLower rawStatus) with
            | None =>
                Logger_Warn "Unhandled transaction status" ;;
                ret ("", Some ("invalid status: " +:+ rawStatus))
            | Some newStatus =>
                '(resultStatus, err) ← database.UpdateKYCStatus userID newStatus;
                match err with
                | Some e =>
                    Logger_Error "KYC status update failed" ;;
                    ret ("", Some ("kyc update failed: " +:+ e))
                | None =>
                    Logger_Info "KYC status updated" ;;
                    ret (resultStatus, None)
                end
            end
        end
  end.

(** The route [POST /webhook/onramper]: the handler runs on a new context
    for the request, against the store [db]. *)
Definition start (db : hasura.Store) : State :=
  {| store := db; writer := gin.reset; trace := [] |}.

Definition serve (dec : list byte -> models.WebhookPayload * error)
    (w : OnramperManager) (req : gin.Request) (db : hasura.Store) : State :=
  snd (WebhookHandler dec w req (start db)).

(** The answer of the signature check that the handler makes for the
    request [req], whose body is [body]. *)
Definition verifies (w : OnramperManager) (req : gin.Request) (body : list byte)
    (db : hasura.Store) : bool :=
  fst (ValidateSignature (gin.Header_Get req "X-Onramper-Webhook-Signature") body
                         (WebhookSecret w) (start db)).

End onramper.

(** ** Requests and stores used in the examples *)
Module fixtures.

(** [generateHMACSignature] of [webhook_test.go], on the bytes of the
    payload. *)
Definition generateHMACSignature (payload : list byte) (secret : string) : string :=
  hex.EncodeToString (hmac.Sum (bytes secret) payload).

(** JSON text written with apostrophes in place of double quotes. *)
Fixpoint json_text (s : string) : string :=
  match s with
  | EmptyString => EmptyString
  | String c r =>
      String (if Ascii.eqb c "'"%char then "034"%char else c) (json_text r)
  end.

Definition manager : onramper.OnramperManager :=
  {| onramper.WebhookSecret := "test-secret" |}.

Definition body_completed : list byte :=
  bytes (json_text "{'status':'completed','transactionId':'TX42'}").

Definition payload_of (status transactionID : string) : models.WebhookPayload :=
  {| models.Country := ""; models.InAmount := 0; models.Onramp := "";
     models.OnrampTransactionID := ""; models.OutAmount := 0;
     models.PaymentMethod := ""; models.PartnerContext := "";
     models.SourceCurrency := ""; models.Status := status;
     models.StatusDate := 0; models.TargetCurrency := "";
     models.TransactionID := transactionID; models.TransactionType := "";
     models.TransactionHash := ""; models.WalletAddress := "" |}.

(** A body that is not JSON. *)
Definition body_malformed : list byte := bytes "{".

(** A decoder that knows the two bodies above: it stands for
    [encoding/json] where an example needs one. *)
Definition dec (data : list byte) : models.WebhookPayload * error :=
  if String.eqb (string_of_list_byte data) (string_of_list_byte body_completed)
  then (payload_of "completed" "TX42", None)
  else (models.zero, Some "unexpected end of JSON input").

Definition post (body : list byte) (signature : string) : gin.Request :=
  {| gin.Body := (body, None);
     gin.Header := {[ "X-Onramper-Webhook-Signature" := signature ]} |}.

(** The event of the end-to-end example, signed with the secret of the
    manager. *)
Definition req_completed : gin.Request :=
  post body_completed (generateHMACSignature body_completed "test-secret").

(** A signed request whose body is not JSON. *)
Definition req_malformed : gin.Request :=
  post body_malformed (generateHMACSignature body_malformed "test-secret").

(** The event with a signature that was not made with the secret. *)
Definition req_forged : gin.Request := post body_completed "invalid-signature".

Definition empty_store : hasura.Store :=
  {| hasura.reachable := true; hasura.refusal := "connection refused";
     hasura.fiat_transactions := ∅; hasura.id_verification_sessions := ∅ |}.

(** The row that [UpsertOnramperTransaction] sends for a payload. *)
Definition row_of (user : string) (p : models.WebhookPayload) : hasura.fiat_transaction :=
  {| hasura.user_id := user;
     hasura.country := models.Country p;
     hasura.in_amount := models.InAmount p;
     hasura.out_amount := models.OutAmount p;
     hasura.payment_method := models.PaymentMethod p;
     hasura.source_currency := models.SourceCurrency p;
     hasura.target_currency := models.TargetCurrency p;
     hasura.transaction_type := strings.ToUpper (models.TransactionType p);
     hasura.transaction_status := models.Status p;
     hasura.transaction_hash := models.TransactionHash p;
     hasura.partner_context := models.PartnerContext p;
     hasura.wallet_address := models.WalletAddress p;
     hasura.onramp_transaction_id := models.OnrampTransactionID p;
     hasura.transaction_id := models.TransactionID p |}.

(** A user id, in the form of the [uuid] column that holds it. *)
Definition user : string := "9b2f6c1e-4d3a-4c8e-8f0a-1b2c3d4e5f60".

(** A store that holds transaction [TX42] of [user], as the checkout flow
    leaves it, and no verification record. *)
Definition store_tx42 : hasura.Store :=
  fst (hasura.UpsertFiatTransaction (row_of user (payload_of "new" "TX42"))
                                    empty_store).

(** The same store once [user] is approved. *)
Definition store_approved : hasura.Store :=
  fst (hasura.UpsertKYCStatus user "APPROVED" store_tx42).

(** An event for [TX42] whose status is [completed] after one space. *)
Definition event_padded : models.WebhookPayload := payload_of " completed" "TX42".

(** A key and the same key followed by a zero byte. *)
Definition key : string := "k".
Definition key_zero : string := String "k" (String "000" EmptyString).

End fixtures.

(** ** Package [strconv] and the boolean helpers of package [utils] *)
Module convert.

(** [strconv.ParseBool]: six spellings of each value; anything else is the
    syntax error, whose text is kept short as the callers only test the
    error against nil. *)
Definition ParseBool (str : string) : bool * error :=
  if String.eqb str "1" || String.eqb str "t" || String.eqb str "T"
     || String.eqb str "true" || String.eqb str "TRUE" || String.eqb str "True"
  then (true, None)
  else if String.eqb str "0" || String.eqb str "f" || String.eqb str "F"
          || String.eqb str "false" || String.eqb str "FALSE" || String.eqb str "False"
  then (false, None)
  else (false, Some "invalid syntax").

Definition BoolToString (value : bool) : string :=
  if value then "true" else "false".

(** [logger] tells whether the [*zap.Logger] argument is non-nil. *)
Definition ParseBoolOrDefault (logger : bool) (input : string) (defaultVal : bool)
  : M bool :=
  if String.eqb input "" then ret defaultVal
  else
    let '(parsed, err) := ParseBool input in
    match err with
    | Some _ =>
        (if logger
         then Logger_Warn "Invalid boolean parameter; defaulting to defaultVal"
         else ret tt) ;;
        ret defaultVal
    | None => ret parsed
    end.

End convert.

(** ** The handler of [webhook_test.go]

    [WebhookManager] carries a database and a KYC service, but its handler
    calls the methods [UpdateTransaction] and [UpdateKYCStatus] of the
    manager itself. *)
Module webhook_test.

Record WebhookManager := {
  WebhookSecret : string;
  (** [DatabaseService.UpdateTransaction] *)
  DB : models.WebhookPayload -> string * error;
  (** [KYCService.UpdateKYCStatus] *)
  KYC : string -> string -> bool * error
}.

Definition ValidateSignature (signature : string) (body : list byte) (secret : string)
  : bool :=
  let expectedSignature := hex.EncodeToString (hmac.Sum (bytes secret) body) in
  String.eqb signature expectedSignature.

Definition UpdateTransaction (w : WebhookManager) (payload : models.WebhookPayload)
  : string * error :=
  ("user123", None).

Definition UpdateKYCStatus (w : WebhookManager) (status userID : string) : bool * error :=
  (true, None).

Definition WebhookHandler (dec : list byte -> models.WebhookPayload * error)
    (w : WebhookManager) (c : gin.Request) : M unit :=
  let '(body, err) := gin.Body c in
  match err with
  | Some _ =>
      Logger_Error "Failed to read webhook body" ;;
      c_JSON 400 [("error", "Invalid request")]
  | None =>
      if negb (ValidateSignature (gin.Header_Get c "X-Onramper-Webhook-Signature")
                                 body (WebhookSecret w)) then
        Logger_Error "Invalid webhook signature" ;;
        c_JSON 401 [("error", "Invalid signature")]
      else
        '(payload, err) ← json_Unmarshal dec body;
        match err with
        | Some _ =>
            Logger_Error "Failed to parse webhook payload" ;;
            c_JSON 400 [("error", "Failed to parse webhook data")]
        | None =>
            let '(userID, err) := UpdateTransaction w payload in
            match err with
            | Some _ =>
                Logger_Error "Failed to store webhook data in DB" ;;
                c_JSON 500 [("error", "Database error")]
            | None =>
                let '(_, err) := UpdateKYCStatus w (models.Status payload) userID in
                (if err is Some _ then Logger_Error "Failed to update KYC status"
                 else ret tt) ;;
                c_JSON 200 [("message", "Webhook received")]
            end
        end
  end.

Definition serve (dec : list byte -> models.WebhookPayload * error)
    (w : WebhookManager) (req : gin.Request) (db : hasura.Store) : State :=
  snd (WebhookHandler dec w req (onramper.start db)).

End webhook_test.

(** ** The checkout flow: [InitiateTransaction] of [endpoints_manager.go] *)
Module checkout.

Record Wallet := { Address : string }.

Record InitiateTransactionRequest := {
  Onramp : string;
  Source : string;
  Destination : string;
  Amount : models.float64;
  Type_ : string;
  PaymentMethod : string;
  Network : string;
  UUID : string;
  Wallet_ : Wallet;
  Country : string
}.

Record Theme := {
  IsDark : bool;
  ThemeName : string;
  PrimaryColor : string;
  SecondaryColor : string;
  PrimaryTextColor : string;
  SecondaryTextColor : string;
  CardColor : string;
  BorderRadius : option Z
}.

Record SupportedParams := {
  Theme_ : Theme;
  (** [PartnerData.RedirectURL.Success] *)
  PartnerData_RedirectURL_Success : string
}.

Record SessionInformation := {
  sOnramp : string;
  sSource : string;
  sDestination : string;
  sAmount : models.float64;
  sType : string;
  sPaymentMethod : string;
  sNetwork : string;
  sUUID : string;
  sOriginatingHost : string;
  sWallet : Wallet;
  sSupportedParams : SupportedParams;
  sCountry : string;
  sExpiringTime : Z;
  sSessionID : string
}.

Record TransactionInformation := {
  TransactionID : string;
  URL : string;
  tType : string;
  (** [Params.Permissions] *)
  Params_Permissions : string
}.

(** [InitiateTransactionResponse.Message] *)
Record Message := {
  ValidationInformation : bool;
  Status : string;
  SessionInformation_ : SessionInformation;
  TransactionInformation_ : TransactionInformation
}.

(** What the handler reads of its [gin.Context]: the query string and the
    result of [c.ShouldBindJSON(&payload)]. *)
Record Request := {
  Query : gmap string string;
  ShouldBindJSON : InitiateTransactionRequest * error
}.

(** [c.Query(key)] *)
Definition Query_ (c : Request) (key : string) : string := default "" (Query c !! key).

(** The row that the handler builds for the store; [now] is
    [time.Now().UTC()]. *)
Definition onrampTx_of (response : Message) (now : models.Time) : models.WebhookPayload :=
  let txInfo := TransactionInformation_ response in
  let sess := SessionInformation_ response in
  {| models.Country := sCountry sess;
     models.InAmount := sAmount sess;
     models.Onramp := sOnramp sess;
     models.OnrampTransactionID := TransactionID txInfo;
     models.OutAmount := 0;
     models.PaymentMethod := sPaymentMethod sess;
     models.PartnerContext := "";
     models.SourceCurrency := sSource sess;
     models.Status := utils.MapTransactionStatus (Status response);
     models.StatusDate := now;
     models.TargetCurrency := sDestination sess;
     models.TransactionID := TransactionID txInfo;
     models.TransactionType := strings.ToUpper (sType sess);
     models.TransactionHash := "";
     models.WalletAddress := Address (sWallet sess) |}.

(** [api] is [h.onramperClient.InitiateTransaction], a method of the
    interface [OnRamperClient]; [dbClient_nil] tells whether [h.dbClient] is
    nil. *)
Definition InitiateTransaction (api : InitiateTransactionRequest -> Message * error)
    (dbClient_nil : bool) (now : models.Time) (c : Request) : M unit :=
  let userID := Query_ c "user_id" in
  if String.eqb userID "" then
    Logger_Error "Missing user_id" ;;
    c_JSON 400 [("error", "user_id is required")]
  else
    let '(payload, err) := ShouldBindJSON c in
    if err is Some _ then
      Logger_Error "Invalid request body" ;;
      c_JSON 400 [("error", "Invalid request body")]
    else if String.eqb (Address (Wallet_ payload)) "" then
      c_JSON 400 [("error", "wallet address required")]
    else
      let '(response, err) := api payload in
      if err is Some _ then
        Logger_Error "Failed to initiate transaction" ;;
        c_JSON 500 [("error", "Failed to initiate transaction")]
      else
        let txInfo := TransactionInformation_ response in
        (if String.eqb (TransactionID txInfo) "" then
           Logger_Error "Empty transaction ID in Onramper response" ;;
           c_JSON 500 [("error", "Missing transaction ID in response")]
         else ret tt) ;;
        let onrampTx := onrampTx_of response now in
        if dbClient_nil then
          Logger_Error "Database client is nil" ;;
          c_JSON 500 [("error", "Internal server error")]
        else
          '(returnedUserID, err) ← database.UpsertOnramperTransaction onrampTx userID;
          if err is Some _ then
            Logger_Error "Failed to insert transaction" ;;
            c_JSON 500 [("Error", "Failed to save transaction")]
          else
            (if negb (String.eqb returnedUserID userID) then
               Logger_Warn "User ID mismatch after upsert"
             else ret tt) ;;
            Logger_Info "Transaction initiated successfully" ;;
            c_JSON 200 [("status", Status response);
                        ("transaction_id", TransactionID txInfo);
                        ("user_id", userID);
                        ("redirect_url", URL txInfo)].

(** The route [POST checkout/intent]. *)
Definition serve (api : InitiateTransactionRequest -> Message * error)
    (dbClient_nil : bool) (now : models.Time) (req : Request) (db : hasura.Store)
  : State :=
  snd (InitiateTransaction api dbClient_nil now req (onramper.start db)).

End checkout.

(** ** Shapes of strings *)
Module shape.

(** [c] is one of the sixteen characters of [hextable]. *)
Definition is_hex_digit (c : ascii) : bool :=
  existsb (Ascii.eqb c) (list_ascii_of_string hex.hextable).

(** [s] is made of lower-case hexadecimal digits only. *)
Definition all_hex (s : string) : bool :=
  forallb is_hex_digit (list_ascii_of_string s).

(** The string of one zero byte. *)
Definition nul : string := String "000" EmptyString.

End shape.

(** ** Further requests used in the examples *)
Module samples.

(** A request whose body could not be read. *)
Definition req_unreadable : gin.Request :=
  {| gin.Body := ([], Some "unexpected EOF"); gin.Header := ∅ |}.

(** A manager of [webhook_test.go] whose two services fail. *)
Definition failing_manager : webhook_test.WebhookManager :=
  {| webhook_test.WebhookSecret := "test-secret";
     webhook_test.DB := fun _ => ("", Some "database error");
     webhook_test.KYC := fun _ _ => (false, Some "kyc error") |}.

(** The [completed] event for transaction [TX42]. *)
Definition event_completed : models.WebhookPayload := fixtures.payload_of "completed" "TX42".

(** An event whose identifiers are empty or blank. *)
Definition event_blank : models.WebhookPayload :=
  {| models.Country := ""; models.InAmount := 0; models.Onramp := "";
     models.OnrampTransactionID := "  "; models.OutAmount := 0;
     models.PaymentMethod := ""; models.PartnerContext := "";
     models.SourceCurrency := ""; models.Status := "completed";
     models.StatusDate := 0; models.TargetCurrency := "";
     models.TransactionID := ""; models.TransactionType := "";
     models.TransactionHash := ""; models.WalletAddress := " " |}.

End samples.

(** ** A checkout used in the examples *)
Module checkout_samples.

Import checkout.

Definition intent : InitiateTransactionRequest :=
  {| Onramp := "moonpay"; Source := "eur"; Destination := "btc"; Amount := 100;
     Type_ := "buy"; PaymentMethod := "creditcard"; Network := "bitcoin"; UUID := "";
     Wallet_ := {| Address := "bc1qxy2kgdygjrsqtzq2n0yrf2493p83kkfjhx0wlh" |};
     Country := "de" |}.

Definition session_of (i : InitiateTransactionRequest) : SessionInformation :=
  {| sOnramp := Onramp i; sSource := Source i; sDestination := Destination i;
     sAmount := Amount i; sType := Type_ i; sPaymentMethod := PaymentMethod i;
     sNetwork := Network i; sUUID := UUID i; sOriginatingHost := "";
     sWallet := Wallet_ i;
     sSupportedParams :=
       {| Theme_ := {| IsDark := false; ThemeName := ""; PrimaryColor := "";
                       SecondaryColor := ""; PrimaryTextColor := "";
                       SecondaryTextColor := ""; CardColor := "";
                       BorderRadius := None |};
          PartnerData_RedirectURL_Success := "" |};
     sCountry := Country i; sExpiringTime := 0; sSessionID := "" |}.

(** An upstream client that opens transaction [TX42] with the status
    [in_progress]. *)
Definition api (i : InitiateTransactionRequest) : Message * error :=
  ({| ValidationInformation := true; Status := "in_progress";
      SessionInformation_ := session_of i;
      TransactionInformation_ :=
        {| TransactionID := "TX42"; URL := "https://buy.moonpay.com";
           tType := "iframe"; Params_Permissions := "" |} |}, None).

(** An upstream client that fails. *)
Definition api_down (i : InitiateTransactionRequest) : Message * error :=
  (fst (api i), Some "unable to initiate transaction with status code: 503").

Definition request_of (user : string) : Request :=
  {| Query := {[ "user_id" := user ]}; ShouldBindJSON := (intent, None) |}.

(** Another user id. *)
Definition other_user : string := "1c7d0b52-6a3e-4f19-9d2b-7e8f9a0b1c2d".

(** A request without [user_id]. *)
Definition anonymous : Request :=
  {| Query := ∅; ShouldBindJSON := (intent, None) |}.

End checkout_samples.

(** ** Sequences of store operations *)
Module session.

(** One call of the database client or of the webhook functions that use
    it. *)
Inductive Op :=
| Upsert (onrampTx : models.WebhookPayload) (userID : string)
| Lookup (transactionID onrampTxID walletAddress : string)
| KYC (userID newStatus : string)
| Reconcile (payload : models.WebhookPayload)
| Webhook (payload : option models.WebhookPayload).

Definition step (o : Op) (s : State) : State :=
  match o with
  | Upsert p u => snd (database.UpsertOnramperTransaction p u s)
  | Lookup t o w => snd (database.GetUserIDFromTransaction t o w s)
  | KYC u n => snd (database.UpdateKYCStatus u n s)
  | Reconcile p => snd (onramper.UpdateTransaction p s)
  | Webhook p => snd (onramper.HandleKYCWebhook p s)
  end.

(** The calls of [ops] one after the other, from the state [s]. *)
Definition run (ops : list Op) (s : State) : State :=
  fold_left (fun s o => step o s) ops s.

End session.

(** ** A sequence of calls used in the examples *)
Module scenario.

(** Calls that try to take the approval of [fixtures.user] back and to
    give transaction [TX42] to another user. *)
Definition hostile_calls : list session.Op :=
  [ session.Webhook (Some (fixtures.payload_of "failed" "TX42"));
    session.KYC fixtures.user "REJECTED";
    session.Upsert (fixtures.payload_of "pending" "TX42") "another-user";
    session.Webhook (Some (fixtures.payload_of "pending" "TX42"));
    session.Reconcile (fixtures.payload_of "failed" "TX42") ].

End scenario.

(** * Test vectors: FIPS 180-2 for SHA-256, RFC 4231 for HMAC-SHA256 *)

Example sha256_abc :
  hex.EncodeToString (sha256.Sum256 (list_byte_of_string "abc"))
  = "ba7816bf8f01cfea414140de5dae2223b00361a396177a9cb410ff61f20015ad".
Proof. vm_compute. reflexivity. Qed.

Example hmac_rfc4231_case2 :
  hex.EncodeToString (hmac.Sum (list_byte_of_string "Jefe")
                               (list_byte_of_string "what do ya want for nothing?"))
  = "5bdcc146bf60754e6a042426089575c75a003f089d2739839dec58b964ec3843".
Proof. vm_compute. reflexivity. Qed.

(** * Signature check *)

Section Signature.

Lemma byteZ_range b : 0 <= sha256.byteZ b < 256.
Proof.
  unfold sha256.byteZ. pose proof (Byte.to_N_bounded b). lia.
Qed.

Lemma byteZ_inj a b : sha256.byteZ a = sha256.byteZ b -> a = b.
Proof.
  unfold sha256.byteZ. intros H. apply N2Z.inj in H.
  pose proof (Byte.of_to_N a) as Ha. rewrite H, Byte.of_to_N in Ha. congruence.
Qed.

Lemma below_256_shiftr v : 0 <= v -> (v < 256 <-> Z.shiftr v 8 = 0).
Proof.
  intros Hv. rewrite Z.shiftr_div_pow2 by lia. change (2 ^ 8) with 256. split.
  - intros. apply Z.div_small. lia.
  - intros H. destruct (Z_lt_ge_dec v 256) as [|Hge]; [done|].
    assert (1 <= v / 256) by (apply Z.div_le_lower_bound; lia). lia.
Qed.

Lemma lor_lxor_range v a b :
  0 <= v < 256 -> 0 <= a < 256 -> 0 <= b < 256 ->
  0 <= Z.lor v (Z.lxor a b) < 256.
Proof.
  intros Hv Ha Hb.
  assert (0 <= Z.lxor a b) by (apply Z.lxor_nonneg; lia).
  assert (0 <= Z.lor v (Z.lxor a b)) by (apply Z.lor_nonneg; lia).
  split; [done|]. apply below_256_shiftr; [done|].
  rewrite Z.shiftr_lor, Z.shiftr_lxor.
  rewrite (proj1 (below_256_shiftr v ltac:(lia)) ltac:(lia)).
  rewrite (proj1 (below_256_shiftr a ltac:(lia)) ltac:(lia)).
  rewrite (proj1 (below_256_shiftr b ltac:(lia)) ltac:(lia)).
  reflexivity.
Qed.

Lemma or_xor_range l : forall v, 0 <= v < 256 -> 0 <= fold_left subtle.or_xor l v < 256.
Proof.
  induction l as [|[a b] l IH]; intros v Hv; simpl; [done|].
  apply IH. unfold subtle.or_xor. apply lor_lxor_range; auto using byteZ_range.
Qed.

(** The accumulator ends at 0 exactly when it starts at 0 and every pair
    holds two equal bytes. *)
Lemma or_xor_zero l : forall v,
  fold_left subtle.or_xor l v = 0 <-> v = 0 /\ Forall (fun p => fst p = snd p) l.
Proof.
  induction l as [|[a b] l IH]; intros v; simpl.
  - split; [intros; split; [done|constructor] | tauto].
  - rewrite IH. unfold subtle.or_xor.
    rewrite Z.lor_eq_0_iff, Z.lxor_eq_0_iff, Forall_cons. simpl.
    split.
    + intros [[-> E] F]. apply byteZ_inj in E. tauto.
    + intros [-> [-> F]]. tauto.
Qed.

Lemma combine_diag (x y : list byte) :
  length x = length y ->
  Forall (fun p => fst p = snd p) (combine x y) -> x = y.
Proof.
  revert y. induction x as [|a x IH]; intros [|b y] Hlen HF; simpl in *;
    try done.
  inversion HF; subst; simpl in *; subst. f_equal. apply IH; [lia|done].
Qed.

Lemma combine_same (x : list byte) :
  Forall (fun p => fst p = snd p) (combine x x).
Proof. induction x; simpl; constructor; auto. Qed.

Lemma ConstantTimeByteEq_zero v :
  0 <= v < 256 -> (subtle.ConstantTimeByteEq v 0 = 1 <-> v = 0).
Proof.
  intros Hv. unfold subtle.ConstantTimeByteEq, sha256.u32.
  rewrite Z.lxor_0_r, Z.shiftr_div_pow2 by lia.
  destruct (Z.eq_dec v 0) as [->|Hne].
  - split; [done|]. intros _. reflexivity.
  - split; [|done]. intros H. exfalso.
    rewrite (Z.mod_small (v - 1)) in H by lia.
    rewrite Z.div_small in H by lia. discriminate.
Qed.

Lemma ConstantTimeCompare_spec x y :
  subtle.ConstantTimeCompare x y = 1 <-> x = y.
Proof.
  unfold subtle.ConstantTimeCompare.
  destruct (Nat.eqb_spec (length x) (length y)) as [Hlen|Hlen]; simpl.
  - rewrite ConstantTimeByteEq_zero by (apply or_xor_range; lia).
    rewrite or_xor_zero. split.
    + intros [_ HF]. by apply combine_diag.
    + intros ->. split; [done|apply combine_same].
  - split; [discriminate|]. intros ->. done.
Qed.

Lemma hmac_Equal_spec x y : hmac.Equal x y = true <-> x = y.
Proof.
  unfold hmac.Equal. rewrite Z.eqb_eq. apply ConstantTimeCompare_spec.
Qed.

Lemma bytes_inj s t : bytes s = bytes t -> s = t.
Proof.
  unfold bytes. intros H.
  rewrite <- (string_of_list_byte_of_string s), <- (string_of_list_byte_of_string t).
  by rewrite H.
Qed.

End Signature.

Section ValidateSignature.

Import onramper.

(** The answer of [ValidateSignature] does not depend on the state. *)
Lemma ValidateSignature_value sig body secret s :
  fst (ValidateSignature sig body secret s)
  = negb (String.eqb secret "")
    && hmac.Equal (bytes sig) (bytes (fixtures.generateHMACSignature body secret)).
Proof.
  unfold ValidateSignature. destruct (String.eqb secret ""); reflexivity.
Qed.

(** Its only effect is the log line of the empty secret. *)
Lemma ValidateSignature_state sig body secret s :
  snd (ValidateSignature sig body secret s)
  = {| store := store s; writer := writer s;
       trace := trace s ++ (if String.eqb secret ""
                            then [EvLog "error" "Webhook secret is missing"]
                            else []) |}.
Proof.
  unfold ValidateSignature. destruct (String.eqb secret ""); simpl.
  - reflexivity.
  - rewrite app_nil_r. by destruct s.
Qed.

Lemma ValidateSignature_true_iff sig body secret s :
  fst (ValidateSignature sig body secret s) = true
  <-> secret <> "" /\ sig = fixtures.generateHMACSignature body secret.
Proof.
  rewrite ValidateSignature_value, andb_true_iff, negb_true_iff, hmac_Equal_spec.
  rewrite String.eqb_neq. split; intros [H1 H2]; split; auto.
  - by apply bytes_inj.
  - by rewrite H2.
Qed.

(** C9: with an empty secret [ValidateSignature] answers false, whatever
    the body and the received signature. *)
Theorem ValidateSignature_empty_secret (receivedSignature : string)
    (payload : list byte) (s : State) :
  fst (ValidateSignature receivedSignature payload "" s) = false.
Proof. reflexivity. Qed.

(** C3, as amended: for a body [B] and a non-empty secret [S],
    [ValidateSignature] answers true on the hex digest of [B] under [S]
    and false on every other received signature; the digest of [B] under
    another secret [S'] is refused exactly when it differs from the digest
    under [S]. *)
Theorem ValidateSignature_accepts_only_the_digest (B : list byte) (S : string)
    (s : State) :
  S <> "" ->
  fst (ValidateSignature (fixtures.generateHMACSignature B S) B S s) = true
  /\ (forall sig, sig <> fixtures.generateHMACSignature B S ->
                  fst (ValidateSignature sig B S s) = false)
  /\ (forall S', fst (ValidateSignature (fixtures.generateHMACSignature B S') B S s) = false
                 <-> fixtures.generateHMACSignature B S'
                     <> fixtures.generateHMACSignature B S).
Proof.
  intros HS. split; [|split].
  - by apply ValidateSignature_true_iff.
  - intros sig Hne. apply not_true_is_false.
    rewrite ValidateSignature_true_iff. tauto.
  - intros S'. rewrite <- not_true_iff_false, ValidateSignature_true_iff. tauto.
Qed.

Lemma ValidateSignature_accepts_only_the_digest_witness :
  "test-secret" <> ""
  /\ fst (ValidateSignature
            (fixtures.generateHMACSignature fixtures.body_completed "test-secret")
            fixtures.body_completed "test-secret"
            (onramper.start fixtures.empty_store)) = true.
Proof.
  split; [discriminate|].
  apply (ValidateSignature_accepts_only_the_digest
           fixtures.body_completed "test-secret"
           (onramper.start fixtures.empty_store)).
  discriminate.
Defined.

(** C3 as stated fails: HMAC copies a short key into a zeroed block, so
    the key [k] and the key [k] followed by a zero byte, two different
    secrets, give one digest, and a signature made under the second is
    accepted under the first. *)
Lemma ValidateSignature_accepts_zero_padded_secret :
  String.eqb fixtures.key_zero fixtures.key = false
  /\ fst (ValidateSignature
            (fixtures.generateHMACSignature fixtures.body_completed fixtures.key_zero)
            fixtures.body_completed fixtures.key
            (onramper.start fixtures.empty_store)) = true.
Proof. vm_compute. split; reflexivity. Qed.

End ValidateSignature.

(** * The webhook handler *)

Section WebhookHandler.

Import onramper.

Variable dec : list byte -> models.WebhookPayload * error.

(** What a request with a refused signature leaves behind. *)
Lemma serve_refused w req body db :
  gin.Body req = (body, None) ->
  verifies w req body db = false ->
  serve dec w req db
  = {| store := db;
       writer := gin.JSON 401 [("error", "Invalid signature")] gin.reset;
       trace := (if String.eqb (WebhookSecret w) ""
                 then [EvLog "error" "Webhook secret is missing"] else [])
                ++ [EvLog "error" "Invalid webhook signature";
                    EvJSON 401 [("error", "Invalid signature")]] |}.
Proof.
  intros Hb Hv. unfold verifies in Hv. unfold serve, WebhookHandler. rewrite Hb.
  unfold mbind, M_bind at 1.
  pose proof (ValidateSignature_state
                (gin.Header_Get req "X-Onramper-Webhook-Signature") body
                (WebhookSecret w) (onramper.start db)) as Hs.
  destruct (ValidateSignature _ body (WebhookSecret w) (onramper.start db))
    as [valid s1]. simpl in Hv, Hs. subst valid s1. simpl.
  by rewrite <- app_assoc.
Qed.

(** What a request with an accepted signature leaves behind: the store is
    not touched, and the status is 500 when the body does not decode and
    200 when it does. *)
Lemma serve_accepted w req body db :
  gin.Body req = (body, None) ->
  verifies w req body db = true ->
  serve dec w req db
  = match snd (dec body) with
    | Some _ =>
        {| store := db;
           writer := gin.JSON 200 [("message", "Webhook received")]
                       (gin.JSON 500 [("error", "Database error")] gin.reset);
           trace := [EvUnmarshal body;
                     EvLog "error" "Failed to store webhook payload in Database";
                     EvJSON 500 [("error", "Database error")];
                     EvLog "error" "Failed to update KYC status";
                     EvJSON 200 [("message", "Webhook received")]] |}
    | None =>
        {| store := db;
           writer := gin.JSON 200 [("message", "Webhook received")] gin.reset;
           trace := [EvUnmarshal body;
                     EvJSON 200 [("message", "Webhook received")]] |}
    end.
Proof.
  intros Hb Hv. unfold verifies in Hv. unfold serve, WebhookHandler. rewrite Hb.
  unfold mbind, M_bind at 1.
  pose proof (ValidateSignature_state
                (gin.Header_Get req "X-Onramper-Webhook-Signature") body
                (WebhookSecret w) (onramper.start db)) as Hs.
  pose proof (proj1 (ValidateSignature_true_iff _ _ _ _) Hv) as [Hne _].
  apply String.eqb_neq in Hne. rewrite Hne in Hs.
  destruct (ValidateSignature _ body (WebhookSecret w) (onramper.start db))
    as [valid s1]. simpl in Hv, Hs. subst valid s1. simpl.
  unfold json_Unmarshal, mbind, M_bind, ret, mret, M_ret. simpl.
  destruct (dec body) as [payload [e|]]; reflexivity.
Qed.

(** C4: when the signature header does not verify against the body under
    the configured secret, the answer is 401, the body is never handed to
    the decoder, no request is sent to the store and the store is
    unchanged. *)
Theorem WebhookHandler_bad_signature (w : OnramperManager) (req : gin.Request)
    (body : list byte) (db : hasura.Store) :
  gin.Body req = (body, None) ->
  verifies w req body db = false ->
  gin.status (writer (serve dec w req db)) = 401
  /\ gin.body (writer (serve dec w req db)) = [[("error", "Invalid signature")]]
  /\ Forall (fun e => is_parse e = false) (trace (serve dec w req db))
  /\ Forall (fun e => is_store_call e = false) (trace (serve dec w req db))
  /\ store (serve dec w req db) = db.
Proof.
  intros Hb Hv. rewrite (serve_refused w req body db Hb Hv). simpl.
  destruct (String.eqb (WebhookSecret w) ""); simpl;
    repeat split; repeat constructor.
Qed.

(** C5, what the code does: when the signature verifies and the body does
    not decode, the status of the answer is 500, not 400, and the handler
    goes on to write the object of the 200 answer after the error. *)
Theorem WebhookHandler_malformed_body (w : OnramperManager) (req : gin.Request)
    (body : list byte) (db : hasura.Store) (e : string) :
  gin.Body req = (body, None) ->
  verifies w req body db = true ->
  snd (dec body) = Some e ->
  gin.status (writer (serve dec w req db)) = 500
  /\ gin.body (writer (serve dec w req db))
     = [[("error", "Database error")]; [("message", "Webhook received")]].
Proof.
  intros Hb Hv He. rewrite (serve_accepted w req body db Hb Hv), He.
  split; reflexivity.
Qed.

(** C1, what the code does: when the signature verifies and the body
    decodes, the answer is 200, but the handler calls neither
    [UpdateTransaction] nor [HandleKYCWebhook]: no request is sent to the
    store and the store is left as it was, without a ledger record or a
    verification record for the event. *)
Theorem WebhookHandler_valid_event_not_stored (w : OnramperManager)
    (req : gin.Request) (body : list byte) (db : hasura.Store) :
  gin.Body req = (body, None) ->
  verifies w req body db = true ->
  snd (dec body) = None ->
  gin.status (writer (serve dec w req db)) = 200
  /\ Forall (fun e => is_store_call e = false) (trace (serve dec w req db))
  /\ store (serve dec w req db) = db.
Proof.
  intros Hb Hv He. rewrite (serve_accepted w req body db Hb Hv), He.
  simpl. repeat split; repeat constructor.
Qed.

End WebhookHandler.

Lemma WebhookHandler_bad_signature_witness :
  gin.Body fixtures.req_forged = (fixtures.body_completed, None)
  /\ onramper.verifies fixtures.manager fixtures.req_forged fixtures.body_completed fixtures.store_tx42 = false
  /\ gin.status (writer (onramper.serve fixtures.dec fixtures.manager
                           fixtures.req_forged fixtures.store_tx42)) = 401.
Proof.
  assert (Hv : onramper.verifies fixtures.manager fixtures.req_forged fixtures.body_completed fixtures.store_tx42 = false)
    by (vm_compute; reflexivity).
  split; [reflexivity|]. split; [exact Hv|].
  exact (proj1 (WebhookHandler_bad_signature fixtures.dec fixtures.manager
                  fixtures.req_forged fixtures.body_completed fixtures.store_tx42
                  eq_refl Hv)).
Defined.

Lemma WebhookHandler_malformed_body_witness :
  gin.Body fixtures.req_malformed = (fixtures.body_malformed, None)
  /\ onramper.verifies fixtures.manager fixtures.req_malformed fixtures.body_malformed fixtures.empty_store = true
  /\ snd (fixtures.dec fixtures.body_malformed) = Some "unexpected end of JSON input"
  /\ gin.status (writer (onramper.serve fixtures.dec fixtures.manager
                           fixtures.req_malformed fixtures.empty_store)) = 500.
Proof.
  assert (Hv : onramper.verifies fixtures.manager fixtures.req_malformed fixtures.body_malformed fixtures.empty_store = true)
    by (vm_compute; reflexivity).
  assert (Hd : snd (fixtures.dec fixtures.body_malformed)
               = Some "unexpected end of JSON input")
    by (vm_compute; reflexivity).
  split; [reflexivity|]. split; [exact Hv|]. split; [exact Hd|].
  exact (proj1 (WebhookHandler_malformed_body fixtures.dec fixtures.manager
                  fixtures.req_malformed fixtures.body_malformed fixtures.empty_store
                  "unexpected end of JSON input" eq_refl Hv Hd)).
Defined.

Lemma WebhookHandler_valid_event_not_stored_witness :
  gin.Body fixtures.req_completed = (fixtures.body_completed, None)
  /\ onramper.verifies fixtures.manager fixtures.req_completed fixtures.body_completed fixtures.empty_store = true
  /\ snd (fixtures.dec fixtures.body_completed) = None
  /\ gin.status (writer (onramper.serve fixtures.dec fixtures.manager
                           fixtures.req_completed fixtures.empty_store)) = 200
  /\ Forall (fun e => is_store_call e = false)
            (trace (onramper.serve fixtures.dec fixtures.manager
                      fixtures.req_completed fixtures.empty_store))
  /\ store (onramper.serve fixtures.dec fixtures.manager
              fixtures.req_completed fixtures.empty_store)
     = fixtures.empty_store.
Proof.
  assert (Hv : onramper.verifies fixtures.manager fixtures.req_completed fixtures.body_completed fixtures.empty_store = true)
    by (vm_compute; reflexivity).
  assert (Hd : snd (fixtures.dec fixtures.body_completed) = None)
    by (vm_compute; reflexivity).
  split; [reflexivity|]. split; [exact Hv|]. split; [exact Hd|].
  exact (WebhookHandler_valid_event_not_stored fixtures.dec fixtures.manager
           fixtures.req_completed fixtures.body_completed fixtures.empty_store
           eq_refl Hv Hd).
Defined.

(** * Reconciliation *)

Section UpdateTransaction.

Import onramper.

(** C10: whatever the payload, [UpdateTransaction] returns the error of
    its first guard, because its local [userID] is always empty; the state
    is returned as it was, so no request was sent to the store and no
    ledger record was written. *)
Theorem UpdateTransaction_always_fails (payload : models.WebhookPayload) (s : State) :
  UpdateTransaction payload s = (("", Some "user ID is required"), s).
Proof. reflexivity. Qed.

(** C6: a payload that carries a transaction id and a status is refused
    all the same: for the event [TX42] with status [completed], in every
    state, [UpdateTransaction] returns the error of its first guard, on
    the local [userID] that nothing assigns, and leaves the state as it
    was; the answer is that of the empty payload, so the transaction id
    and the status of the payload decide nothing. *)
Theorem UpdateTransaction_rejects_complete_payload (s : State) :
  String.eqb (models.TransactionID samples.event_completed) "" = false
  /\ String.eqb (models.Status samples.event_completed) "" = false
  /\ UpdateTransaction samples.event_completed s = (("", Some "user ID is required"), s)
  /\ UpdateTransaction samples.event_completed s = UpdateTransaction models.zero s.
Proof. repeat split; reflexivity. Qed.

End UpdateTransaction.

(** * Verification state *)

Section UpdateKYCStatus.

Import database.

Lemma UpdateKYCStatus_store userID newStatus s :
  store (snd (UpdateKYCStatus userID newStatus s))
  = if hasura.reachable (store s)
    then fst (hasura.UpsertKYCStatus userID newStatus (store s))
    else store s.
Proof.
  unfold UpdateKYCStatus, ExecRaw, engine, emit, modify, mbind, M_bind, ret, mret, M_ret,
    hasura.one.
  simpl. destruct (hasura.reachable (store s)); [|reflexivity].
  destruct (hasura.UpsertKYCStatus userID newStatus (store s)) as [st' [r|]]; simpl.
  - destruct (String.eqb r ""); reflexivity.
  - reflexivity.
Qed.

Lemma UpsertKYCStatus_approved user new_status st :
  hasura.id_verification_sessions st !! user = Some "APPROVED" ->
  hasura.UpsertKYCStatus user new_status st = (st, None).
Proof. intros H. unfold hasura.UpsertKYCStatus. by rewrite H. Qed.

Lemma UpsertKYCStatus_not_approved user new_status st :
  hasura.id_verification_sessions st !! user <> Some "APPROVED" ->
  hasura.id_verification_sessions (fst (hasura.UpsertKYCStatus user new_status st)) !! user
  = Some new_status.
Proof.
  intros H. unfold hasura.UpsertKYCStatus.
  destruct (hasura.id_verification_sessions st !! user) as [old|] eqn:E; simpl.
  - destruct (String.eqb_spec old "APPROVED") as [->|Hne]; [done|]. simpl.
    apply lookup_insert_eq.
  - apply lookup_insert_eq.
Qed.

(** C2: for a user whose stored state is [APPROVED], [UpdateKYCStatus]
    with [PENDING] or [REJECTED] leaves the stored state [APPROVED]; the
    upsert applies the new state only when the stored state is not
    [APPROVED]: a call that changes the store started from another state
    or from no record, and from such a start a call that reaches the store
    stores the new state. *)
Theorem UpdateKYCStatus_ratchet (userID newStatus : string) (s : State) :
  let before := hasura.id_verification_sessions (store s) !! userID in
  let s' := snd (UpdateKYCStatus userID newStatus s) in
  let after := hasura.id_verification_sessions (store s') !! userID in
  (before = Some "APPROVED" ->
   newStatus = "PENDING" \/ newStatus = "REJECTED" ->
   after = Some "APPROVED")
  /\ (store s' <> store s -> before <> Some "APPROVED")
  /\ (before <> Some "APPROVED" -> hasura.reachable (store s) = true ->
      after = Some newStatus).
Proof.
  intros before s' after. subst before s' after.
  rewrite UpdateKYCStatus_store. split; [|split].
  - intros H _. destruct (hasura.reachable (store s)); [|done].
    by rewrite (UpsertKYCStatus_approved _ _ _ H).
  - intros Hch H. apply Hch. destruct (hasura.reachable (store s)); [|done].
    by rewrite (UpsertKYCStatus_approved _ _ _ H).
  - intros H ->. by apply UpsertKYCStatus_not_approved.
Qed.

Lemma UpdateKYCStatus_ratchet_witness :
  hasura.id_verification_sessions
    (store (onramper.start fixtures.store_approved)) !! fixtures.user = Some "APPROVED"
  /\ ("REJECTED" = "PENDING" \/ "REJECTED" = "REJECTED")
  /\ hasura.id_verification_sessions
       (store (snd (UpdateKYCStatus fixtures.user "REJECTED"
                      (onramper.start fixtures.store_approved)))) !! fixtures.user
     = Some "APPROVED".
Proof.
  assert (H : hasura.id_verification_sessions
                (store (onramper.start fixtures.store_approved)) !! fixtures.user
              = Some "APPROVED")
    by (vm_compute; reflexivity).
  split; [exact H|]. split; [right; reflexivity|].
  exact (proj1 (UpdateKYCStatus_ratchet fixtures.user "REJECTED"
                  (onramper.start fixtures.store_approved))
               H (or_intror eq_refl)).
Defined.

End UpdateKYCStatus.

Section HandleKYCWebhook.

Import onramper.

(** The lookup asks for a list of rows and decodes the answer into a
    struct: a request that is executed ends at the decoding error, one that
    is not ends at the query error. *)
Lemma GetUserIDFromTransaction_run a b c s :
  database.GetUserIDFromTransaction a b c s
  = (("", Some (if hasura.reachable (store s) then "unable to execute Query"
                else "failed to query the database")),
     {| store := store s; writer := writer s;
        trace := trace s ++ [EvExecRaw "GetUserIDFromTransaction"] |}).
Proof.
  unfold database.GetUserIDFromTransaction, ExecRaw, engine, emit, modify,
    mbind, M_bind, ret, mret, M_ret, hasura.many, hasura.GetUserIDFromTransaction.
  simpl. by destruct (hasura.reachable (store s)).
Qed.

Lemma GetUserIDFromTransaction_state a b c s :
  snd (database.GetUserIDFromTransaction a b c s)
  = {| store := store s; writer := writer s;
       trace := trace s ++ [EvExecRaw "GetUserIDFromTransaction"] |}.
Proof. by rewrite GetUserIDFromTransaction_run. Qed.

(** C7: an event that carries an identifier never reaches the derivation
    of the verification state.  Whatever its status, [completed] included,
    [HandleKYCWebhook] returns no state and the error of the user lookup,
    which fails on every call; the only request made is the lookup, no
    verification state is sent and the store is as before. *)
Theorem HandleKYCWebhook_stops_at_user_resolution (p : models.WebhookPayload)
    (s : State) :
  String.eqb (strings.TrimSpace (models.TransactionID p)) ""
  && String.eqb (strings.TrimSpace (models.OnrampTransactionID p)) ""
  && String.eqb (strings.TrimSpace (models.WalletAddress p)) "" = false ->
  HandleKYCWebhook (Some p) s
  = (("", Some ("user resolution failed: "
                +:+ (if hasura.reachable (store s) then "unable to execute Query"
                     else "failed to query the database"))),
     {| store := store s; writer := writer s;
        trace := trace s ++ [EvExecRaw "GetUserIDFromTransaction";
                             EvLog "error" "User resolution failed"] |}).
Proof.
  intros Hid. unfold HandleKYCWebhook. rewrite Hid.
  unfold mbind at 1. unfold M_bind at 1.
  rewrite GetUserIDFromTransaction_run.
  unfold Logger_Error, emit, modify, mbind, M_bind, ret, mret, M_ret. simpl.
  by rewrite <- app_assoc.
Qed.

Lemma HandleKYCWebhook_stops_at_user_resolution_witness :
  String.eqb (strings.TrimSpace (models.TransactionID samples.event_completed)) ""
  && String.eqb (strings.TrimSpace (models.OnrampTransactionID samples.event_completed)) ""
  && String.eqb (strings.TrimSpace (models.WalletAddress samples.event_completed)) ""
  = false
  /\ hasura.fiat_transactions fixtures.store_tx42 !! "TX42"
     = Some (fixtures.row_of fixtures.user (fixtures.payload_of "new" "TX42"))
  /\ fst (HandleKYCWebhook (Some samples.event_completed) (start fixtures.store_tx42))
     = ("", Some "user resolution failed: unable to execute Query")
  /\ store (snd (HandleKYCWebhook (Some samples.event_completed)
                                  (start fixtures.store_tx42)))
     = fixtures.store_tx42.
Proof.
  assert (Hid : String.eqb (strings.TrimSpace (models.TransactionID samples.event_completed)) ""
                && String.eqb (strings.TrimSpace (models.OnrampTransactionID samples.event_completed)) ""
                && String.eqb (strings.TrimSpace (models.WalletAddress samples.event_completed)) ""
                = false) by (vm_compute; reflexivity).
  assert (Hrow : hasura.fiat_transactions fixtures.store_tx42 !! "TX42"
                 = Some (fixtures.row_of fixtures.user (fixtures.payload_of "new" "TX42")))
    by (vm_compute; reflexivity).
  split; [exact Hid|]. split; [exact Hrow|]. split.
  - exact (f_equal fst (HandleKYCWebhook_stops_at_user_resolution
                          samples.event_completed (start fixtures.store_tx42) Hid)).
  - exact (f_equal (fun r => store (snd r))
             (HandleKYCWebhook_stops_at_user_resolution
                samples.event_completed (start fixtures.store_tx42) Hid)).
Defined.

End HandleKYCWebhook.

(** * Status mapping *)

Section MapTransactionStatus.

Import utils.

(** C8: [MapTransactionStatus] returns, for every input, one of the five
    canonical states, which are five different strings; it has no error
    result; an input that matches none of the recognized patterns maps to
    [new]. *)
Theorem MapTransactionStatus_total (input : string) :
  In (MapTransactionStatus input) canonical_states
  /\ NoDup canonical_states
  /\ (recognized (strings.ToLower input) = false -> MapTransactionStatus input = "new").
Proof.
  unfold MapTransactionStatus, recognized, canonical_states. split; [|split].
  - repeat match goal with
           | |- context [if ?b then _ else _] => destruct b
           end; simpl; tauto.
  - compute_done.
  - intros H. repeat (apply orb_false_elim in H; destruct H as [H ?]).
    repeat match goal with Hx : _ = false |- _ => rewrite Hx; clear Hx end.
    reflexivity.
Qed.

Lemma MapTransactionStatus_total_witness :
  recognized (strings.ToLower "Refunded") = false
  /\ MapTransactionStatus "Refunded" = "new".
Proof.
  assert (H : recognized (strings.ToLower "Refunded") = false)
    by (vm_compute; reflexivity).
  split; [exact H|].
  exact (proj2 (proj2 (MapTransactionStatus_total "Refunded")) H).
Defined.

Example MapTransactionStatus_empty : MapTransactionStatus "" = "new".
Proof. reflexivity. Qed.

Example MapTransactionStatus_in_progress : MapTransactionStatus "IN_PROGRESS" = "pending".
Proof. reflexivity. Qed.

Example MapTransactionStatus_mixed_case : MapTransactionStatus "CoMpLeTeD" = "completed".
Proof. reflexivity. Qed.

End MapTransactionStatus.

(** * Further properties of package [utils] *)

Section Utils.

Import utils convert.

Lemma MapTransactionStatus_cases input :
  MapTransactionStatus input = "pending" \/ MapTransactionStatus input = "completed"
  \/ MapTransactionStatus input = "paid" \/ MapTransactionStatus input = "failed"
  \/ MapTransactionStatus input = "new".
Proof.
  unfold MapTransactionStatus.
  repeat match goal with
         | |- context [if ?b then _ else _] => destruct b
         end; tauto.
Qed.

(** X1: each of the five canonical states is a fixed point of
    [MapTransactionStatus]: [pending], [completed], [paid], [failed] and
    [new] are mapped to themselves; so mapping a status that is already
    mapped changes nothing. *)
Theorem MapTransactionStatus_idempotent (input : string) :
  (forall state, In state canonical_states -> MapTransactionStatus state = state)
  /\ MapTransactionStatus (MapTransactionStatus input) = MapTransactionStatus input.
Proof.
  split.
  - intros state Hin. unfold canonical_states in Hin. simpl in Hin.
    destruct Hin as [<-|[<-|[<-|[<-|[<-|[]]]]]]; reflexivity.
  - destruct (MapTransactionStatus_cases input) as [H|[H|[H|[H|H]]]];
      rewrite H; reflexivity.
Qed.

Lemma MapTransactionStatus_idempotent_witness :
  In "paid" canonical_states /\ MapTransactionStatus "paid" = "paid".
Proof.
  assert (H : In "paid" canonical_states) by (unfold canonical_states; simpl; tauto).
  split; [exact H|].
  exact (proj1 (MapTransactionStatus_idempotent "") "paid" H).
Defined.



(** X3: [ParseBoolOrDefault] reads back what [BoolToString] writes,
    whatever the default and the logger, and logs nothing. *)
Theorem ParseBoolOrDefault_BoolToString (logger value defaultVal : bool) (s : State) :
  ParseBoolOrDefault logger (BoolToString value) defaultVal s = (value, s).
Proof. destruct value; reflexivity. Qed.

(** X4: an input that is none of the twelve spellings of [strconv.ParseBool]
    gives the default; a warning is logged when the input is not empty and
    a logger was passed, and nothing else happens. *)
Theorem ParseBoolOrDefault_fallback (logger : bool) (input : string)
    (defaultVal : bool) (s : State) :
  input ∉ ["1"; "t"; "T"; "true"; "TRUE"; "True";
           "0"; "f"; "F"; "false"; "FALSE"; "False"] ->
  ParseBoolOrDefault logger input defaultVal s
  = (defaultVal,
     {| store := store s; writer := writer s;
        trace := trace s
                 ++ (if logger && negb (String.eqb input "")
                     then [EvLog "warn" "Invalid boolean parameter; defaulting to defaultVal"]
                     else []) |}).
Proof.
  intros H. repeat (apply not_elem_of_cons in H as [Hne H]; apply String.eqb_neq in Hne;
                    revert Hne). intros.
  unfold ParseBoolOrDefault, ParseBool.
  destruct (String.eqb input "") eqn:E.
  - rewrite andb_false_r, app_nil_r. by destruct s.
  - repeat match goal with Hx : String.eqb input _ = false |- _ => rewrite Hx; clear Hx end.
    simpl. destruct logger; simpl.
    + reflexivity.
    + rewrite app_nil_r. by destruct s.
Qed.

Lemma ParseBoolOrDefault_fallback_witness :
  ("TrUe" ∉ ["1"; "t"; "T"; "true"; "TRUE"; "True";
             "0"; "f"; "F"; "false"; "FALSE"; "False"])
  /\ fst (ParseBoolOrDefault true "TrUe" false (onramper.start fixtures.empty_store))
     = false.
Proof.
  assert (H : "TrUe" ∉ ["1"; "t"; "T"; "true"; "TRUE"; "True";
                        "0"; "f"; "F"; "false"; "FALSE"; "False"])
    by compute_done.
  split; [exact H|].
  exact (f_equal fst (ParseBoolOrDefault_fallback true "TrUe" false
                        (onramper.start fixtures.empty_store) H)).
Defined.

End Utils.

(** * Further properties of the signature check *)

Section SignatureShape.

Import onramper.

Lemma be_bytes_length n x : length (sha256.be_bytes n x) = n.
Proof. induction n; simpl; congruence. Qed.

Lemma flat_be_bytes_length (h : list Z) :
  length (flat_map (sha256.be_bytes 4) h) = (4 * length h)%nat.
Proof.
  induction h as [|x h IH]; [reflexivity|].
  change (flat_map (sha256.be_bytes 4) (x :: h))
    with (sha256.be_bytes 4 x ++ flat_map (sha256.be_bytes 4) h).
  rewrite length_app, be_bytes_length, IH. simpl. lia.
Qed.

Lemma block_length h p : length (sha256.block h p) = 8%nat.
Proof. unfold sha256.block. by destruct (sha256.rounds _ _ _). Qed.

Lemma blocks_length n : forall h p, length h = 8%nat -> length (sha256.blocks n h p) = 8%nat.
Proof.
  induction n as [|n IH]; intros h p Hh; simpl; [done|].
  apply IH, block_length.
Qed.

(** A SHA-256 digest has 32 bytes. *)
Lemma Sum256_length data : length (sha256.Sum256 data) = 32%nat.
Proof.
  unfold sha256.Sum256, sha256.Sum256Z.
  rewrite length_map, flat_be_bytes_length, blocks_length; reflexivity.
Qed.

Lemma hmac_Sum_length key msg : length (hmac.Sum key msg) = 32%nat.
Proof. unfold hmac.Sum. apply Sum256_length. Qed.

Lemma EncodeToString_length src :
  String.length (hex.EncodeToString src) = (2 * length src)%nat.
Proof. induction src as [|b r IH]; simpl; [done|]. rewrite IH. lia. Qed.

Lemma EncodeToString_all_hex src : shape.all_hex (hex.EncodeToString src) = true.
Proof.
  induction src as [|b r IH]; [reflexivity|].
  unfold shape.all_hex in *. simpl. rewrite IH, !andb_true_r.
  destruct b; reflexivity.
Qed.

(** X5: a signature that [ValidateSignature] accepts is made of 64
    lower-case hexadecimal digits; an upper-case or a truncated digest is
    never accepted. *)
Theorem ValidateSignature_accepted_shape (receivedSignature : string)
    (payload : list byte) (secret : string) (s : State) :
  fst (ValidateSignature receivedSignature payload secret s) = true ->
  String.length receivedSignature = 64%nat
  /\ shape.all_hex receivedSignature = true.
Proof.
  intros H. apply ValidateSignature_true_iff in H as [_ ->].
  unfold fixtures.generateHMACSignature.
  rewrite EncodeToString_length, hmac_Sum_length, EncodeToString_all_hex. done.
Qed.

Lemma ValidateSignature_accepted_shape_witness :
  onramper.verifies fixtures.manager fixtures.req_completed fixtures.body_completed
                    fixtures.empty_store = true
  /\ String.length (gin.Header_Get fixtures.req_completed "X-Onramper-Webhook-Signature")
     = 64%nat.
Proof.
  assert (H : onramper.verifies fixtures.manager fixtures.req_completed
                fixtures.body_completed fixtures.empty_store = true)
    by (vm_compute; reflexivity).
  split; [exact H|].
  exact (proj1 (ValidateSignature_accepted_shape _ _ _ _ H)).
Defined.

Lemma bytes_app a b : bytes (a +:+ b) = bytes a ++ bytes b.
Proof.
  unfold bytes. induction a as [|c a IH]; [reflexivity|].
  simpl. unfold list_byte_of_string in *. simpl. by rewrite IH.
Qed.

Lemma bytes_length a : length (bytes a) = String.length a.
Proof.
  unfold bytes, list_byte_of_string. rewrite length_map.
  induction a; simpl; congruence.
Qed.

(** HMAC copies a short key into a zeroed block: a zero byte after the key
    is not seen. *)
Lemma hmac_Sum_zero_extended key msg :
  (length key < sha256.BlockSize)%nat ->
  hmac.Sum (key ++ [x00]) msg = hmac.Sum key msg.
Proof.
  unfold sha256.BlockSize. intros Hlen. unfold hmac.Sum, sha256.BlockSize.
  assert (Hblk : (key ++ [x00]) ++ repeat x00 (64 - length (key ++ [x00]))
                 = key ++ repeat x00 (64 - length key)).
  { rewrite length_app, <- app_assoc. simpl. f_equal.
    replace (64 - length key)%nat with (S (64 - (length key + 1))) by lia.
    reflexivity. }
  destruct (Nat.ltb_spec 64 (length (key ++ [x00]))) as [Hgt|_].
  { rewrite length_app in Hgt. simpl in Hgt. lia. }
  destruct (Nat.ltb_spec 64 (length key)) as [|_]; [lia|].
  by rewrite Hblk.
Qed.

(** X6: a secret shorter than the 64-byte block and the same secret followed
    by a zero byte sign alike: the signature made with the longer one is
    accepted under the shorter one. *)
Theorem ValidateSignature_zero_extended_secret (payload : list byte) (secret : string)
    (s : State) :
  secret <> "" ->
  (String.length secret < 64)%nat ->
  fst (ValidateSignature (fixtures.generateHMACSignature payload (secret +:+ shape.nul))
                         payload secret s) = true.
Proof.
  intros Hne Hlen. apply ValidateSignature_true_iff. split; [done|].
  unfold fixtures.generateHMACSignature. rewrite bytes_app.
  change (bytes shape.nul) with [x00].
  rewrite hmac_Sum_zero_extended; [done|].
  rewrite bytes_length. exact Hlen.
Qed.

Lemma ValidateSignature_zero_extended_secret_witness :
  "test-secret" <> ""
  /\ (String.length "test-secret" < 64)%nat
  /\ fst (ValidateSignature
            (fixtures.generateHMACSignature fixtures.body_completed
                                            ("test-secret" +:+ shape.nul))
            fixtures.body_completed "test-secret"
            (start fixtures.empty_store)) = true.
Proof.
  assert (H1 : "test-secret" <> "") by discriminate.
  assert (H2 : (String.length "test-secret" < 64)%nat) by (vm_compute; lia).
  split; [exact H1|]. split; [exact H2|].
  exact (ValidateSignature_zero_extended_secret fixtures.body_completed "test-secret"
           (start fixtures.empty_store) H1 H2).
Defined.

(** X7: with a non-empty secret the constant-time check of the manager and
    the string comparison of [webhook_test.go] give the same answer on
    every signature; with the empty secret the second accepts the digest
    made with the empty key and the first refuses it. *)
Theorem ValidateSignature_agrees_with_test_double (receivedSignature : string)
    (payload : list byte) (secret : string) (s : State) :
  (secret <> "" ->
   fst (ValidateSignature receivedSignature payload secret s)
   = webhook_test.ValidateSignature receivedSignature payload secret)
  /\ webhook_test.ValidateSignature (fixtures.generateHMACSignature payload "") payload ""
     = true
  /\ fst (ValidateSignature (fixtures.generateHMACSignature payload "") payload "" s)
     = false.
Proof.
  split; [|split].
  - intros Hne. rewrite ValidateSignature_value.
    apply String.eqb_neq in Hne. rewrite Hne. simpl.
    unfold webhook_test.ValidateSignature, fixtures.generateHMACSignature.
    destruct (String.eqb_spec receivedSignature
                (hex.EncodeToString (hmac.Sum (bytes secret) payload))) as [->|Hd].
    + by apply hmac_Equal_spec.
    + apply not_true_is_false. rewrite hmac_Equal_spec. intros E.
      by apply bytes_inj in E.
  - unfold webhook_test.ValidateSignature, fixtures.generateHMACSignature.
    apply String.eqb_refl.
  - reflexivity.
Qed.

Lemma ValidateSignature_agrees_with_test_double_witness :
  "test-secret" <> ""
  /\ fst (ValidateSignature "invalid-signature" fixtures.body_completed "test-secret"
                           (start fixtures.empty_store))
     = webhook_test.ValidateSignature "invalid-signature" fixtures.body_completed
                                      "test-secret".
Proof.
  assert (H1 : "test-secret" <> "") by discriminate.
  split; [exact H1|].
  exact (proj1 (ValidateSignature_agrees_with_test_double "invalid-signature"
                  fixtures.body_completed "test-secret" (start fixtures.empty_store)) H1).
Defined.

End SignatureShape.

(** * Further properties of the webhook handlers *)

Section Handlers.

Import onramper.

Variable dec : list byte -> models.WebhookPayload * error.

Lemma serve_unreadable w req body e db :
  gin.Body req = (body, Some e) ->
  serve dec w req db
  = {| store := db;
       writer := gin.JSON 400 [("error", "Invalid request")] gin.reset;
       trace := [EvLog "error" "Failed to read webhook body";
                 EvJSON 400 [("error", "Invalid request")]] |}.
Proof. intros Hb. unfold serve, WebhookHandler. by rewrite Hb. Qed.

(** X8: when the body of the request cannot be read the answer is 400
    [Invalid request]; the signature is not looked at, so no log line about
    it is written, nothing is decoded and the store is not called. *)
Theorem WebhookHandler_unreadable_body (w : OnramperManager) (req : gin.Request)
    (body : list byte) (e : string) (db : hasura.Store) :
  gin.Body req = (body, Some e) ->
  gin.status (writer (serve dec w req db)) = 400
  /\ gin.body (writer (serve dec w req db)) = [[("error", "Invalid request")]]
  /\ trace (serve dec w req db)
     = [EvLog "error" "Failed to read webhook body";
        EvJSON 400 [("error", "Invalid request")]]
  /\ store (serve dec w req db) = db.
Proof. intros Hb. rewrite (serve_unreadable w req body e db Hb). done. Qed.

(** X9: on every request the handler answers with one of the statuses 400,
    401, 500 and 200, sends no request to the store and leaves the store as
    it found it. *)
Theorem WebhookHandler_never_calls_store (w : OnramperManager) (req : gin.Request)
    (db : hasura.Store) :
  gin.written (writer (serve dec w req db)) = true
  /\ In (gin.status (writer (serve dec w req db))) [400; 401; 500; 200]
  /\ Forall (fun e => is_store_call e = false) (trace (serve dec w req db))
  /\ store (serve dec w req db) = db.
Proof.
  destruct (gin.Body req) as [body [e|]] eqn:Hb.
  - rewrite (serve_unreadable w req body e db Hb). simpl.
    repeat split; auto; repeat constructor.
  - destruct (verifies w req body db) eqn:Hv.
    + rewrite (serve_accepted dec w req body db Hb Hv).
      destruct (snd (dec body)); simpl; repeat split; auto 6; repeat constructor.
    + rewrite (serve_refused dec w req body db Hb Hv). simpl.
      destruct (String.eqb (WebhookSecret w) ""); simpl;
        repeat split; auto; repeat constructor.
Qed.

(** The handler of [webhook_test.go] on a request whose body was read. *)
Lemma test_serve w req body db :
  gin.Body req = (body, None) ->
  webhook_test.serve dec w req db
  = if webhook_test.ValidateSignature
         (gin.Header_Get req "X-Onramper-Webhook-Signature") body
         (webhook_test.WebhookSecret w)
    then match snd (dec body) with
         | Some _ =>
             {| store := db;
                writer := gin.JSON 400 [("error", "Failed to parse webhook data")] gin.reset;
                trace := [EvUnmarshal body;
                          EvLog "error" "Failed to parse webhook payload";
                          EvJSON 400 [("error", "Failed to parse webhook data")]] |}
         | None =>
             {| store := db;
                writer := gin.JSON 200 [("message", "Webhook received")] gin.reset;
                trace := [EvUnmarshal body;
                          EvJSON 200 [("message", "Webhook received")]] |}
         end
    else {| store := db;
            writer := gin.JSON 401 [("error", "Invalid signature")] gin.reset;
            trace := [EvLog "error" "Invalid webhook signature";
                      EvJSON 401 [("error", "Invalid signature")]] |}.
Proof.
  intros Hb. unfold webhook_test.serve, webhook_test.WebhookHandler. rewrite Hb.
  destruct (webhook_test.ValidateSignature _ body _); simpl; [|reflexivity].
  unfold json_Unmarshal, mbind, M_bind, ret, mret, M_ret. simpl.
  destruct (dec body) as [payload [e|]]; reflexivity.
Qed.

(** X10: the handler of [webhook_test.go] answers a signed request with 400
    [Failed to parse webhook data], and nothing more, when the body does not
    decode, and with 200 when it does, whatever the database and KYC
    services of the manager return: it calls the stub methods of the
    manager, not the services, and never answers 500. *)
Theorem test_WebhookHandler_ignores_services (w : webhook_test.WebhookManager)
    (req : gin.Request) (body : list byte) (db : hasura.Store) :
  gin.Body req = (body, None) ->
  webhook_test.ValidateSignature
    (gin.Header_Get req "X-Onramper-Webhook-Signature") body
    (webhook_test.WebhookSecret w) = true ->
  (forall e, snd (dec body) = Some e ->
     gin.status (writer (webhook_test.serve dec w req db)) = 400
     /\ gin.body (writer (webhook_test.serve dec w req db))
        = [[("error", "Failed to parse webhook data")]])
  /\ (snd (dec body) = None ->
      gin.status (writer (webhook_test.serve dec w req db)) = 200)
  /\ store (webhook_test.serve dec w req db) = db.
Proof.
  intros Hb Hv. rewrite (test_serve w req body db Hb), Hv.
  split; [|split].
  - intros e ->. done.
  - intros ->. done.
  - by destruct (snd (dec body)).
Qed.

End Handlers.

Lemma WebhookHandler_unreadable_body_witness :
  gin.Body samples.req_unreadable = ([], Some "unexpected EOF")
  /\ gin.status (writer (onramper.serve fixtures.dec fixtures.manager
                           samples.req_unreadable fixtures.empty_store)) = 400.
Proof.
  split; [reflexivity|].
  exact (proj1 (WebhookHandler_unreadable_body fixtures.dec fixtures.manager
                  samples.req_unreadable [] "unexpected EOF" fixtures.empty_store
                  eq_refl)).
Defined.

Lemma test_WebhookHandler_ignores_services_witness :
  gin.Body fixtures.req_completed = (fixtures.body_completed, None)
  /\ webhook_test.ValidateSignature
       (gin.Header_Get fixtures.req_completed "X-Onramper-Webhook-Signature")
       fixtures.body_completed (webhook_test.WebhookSecret samples.failing_manager)
     = true
  /\ snd (fixtures.dec fixtures.body_completed) = None
  /\ gin.status (writer (webhook_test.serve fixtures.dec samples.failing_manager
                           fixtures.req_completed fixtures.empty_store)) = 200.
Proof.
  assert (Hv : webhook_test.ValidateSignature
                 (gin.Header_Get fixtures.req_completed "X-Onramper-Webhook-Signature")
                 fixtures.body_completed
                 (webhook_test.WebhookSecret samples.failing_manager) = true)
    by (vm_compute; reflexivity).
  assert (Hd : snd (fixtures.dec fixtures.body_completed) = None)
    by (vm_compute; reflexivity).
  split; [reflexivity|]. split; [exact Hv|]. split; [exact Hd|].
  exact (proj1 (proj2 (test_WebhookHandler_ignores_services fixtures.dec
                         samples.failing_manager fixtures.req_completed
                         fixtures.body_completed fixtures.empty_store eq_refl Hv)) Hd).
Defined.

(** * The ledger: [UpsertOnramperTransaction] and [GetUserIDFromTransaction] *)

Ltac run_monad :=
  unfold ExecRaw, engine, emit, modify, Logger_Error, Logger_Warn, Logger_Info,
    Logger_Debug, mbind, M_bind, ret, mret, M_ret, hasura.one, hasura.many; simpl.

Section Ledger.

Import database.

(** The row that the upsert leaves under the transaction id of [object]. *)
Lemma UpsertFiatTransaction_stored object st :
  hasura.fiat_transactions (fst (hasura.UpsertFiatTransaction object st))
    !! hasura.transaction_id object
  = snd (hasura.UpsertFiatTransaction object st).
Proof. unfold hasura.UpsertFiatTransaction. simpl. apply lookup_insert_eq. Qed.

Lemma UpsertOnramperTransaction_run p u s :
  hasura.reachable (store s) = true ->
  UpsertOnramperTransaction p u s
  = (let owner := default "" (hasura.user_id
                                <$> snd (hasura.UpsertFiatTransaction
                                           (fixtures.row_of u p) (store s))) in
     if String.eqb owner "" then ("", Some "database returned empty user ID")
     else (owner, None),
     {| store := fst (hasura.UpsertFiatTransaction (fixtures.row_of u p) (store s));
        writer := writer s;
        trace := trace s ++ [EvExecRaw "UpsertFiatTransaction"] |}).
Proof.
  intros Hr. unfold UpsertOnramperTransaction. run_monad. rewrite Hr.
  unfold fixtures.row_of, hasura.UpsertFiatTransaction. simpl.
  destruct (hasura.fiat_transactions (store s) !! models.TransactionID p) as [old|];
    simpl.
  - by destruct (String.eqb (hasura.user_id old) "").
  - by destruct (String.eqb u "").
Qed.

Lemma UpsertOnramperTransaction_down p u s :
  hasura.reachable (store s) = false ->
  UpsertOnramperTransaction p u s
  = (("", Some ("failed to execute mutation: " +:+ hasura.refusal (store s))),
     {| store := store s; writer := writer s;
        trace := trace s ++ [EvExecRaw "UpsertFiatTransaction"] |}).
Proof.
  intros Hr. unfold UpsertOnramperTransaction. run_monad. by rewrite Hr.
Qed.

(** X11: when [UpsertOnramperTransaction] returns without error, the ledger
    holds a row under the transaction id of the payload; the returned user
    id is the owner of that row and is not empty, and the row carries the
    status, the ids and the wallet of the payload and its transaction type
    in upper case. *)
Theorem UpsertOnramperTransaction_stores_payload (onrampTx : models.WebhookPayload)
    (userID owner : string) (s : State) :
  fst (UpsertOnramperTransaction onrampTx userID s) = (owner, None) ->
  exists row,
    hasura.fiat_transactions (store (snd (UpsertOnramperTransaction onrampTx userID s)))
      !! models.TransactionID onrampTx = Some row
    /\ hasura.user_id row = owner
    /\ owner <> ""
    /\ hasura.transaction_status row = models.Status onrampTx
    /\ hasura.transaction_type row = strings.ToUpper (models.TransactionType onrampTx)
    /\ hasura.onramp_transaction_id row = models.OnrampTransactionID onrampTx
    /\ hasura.wallet_address row = models.WalletAddress onrampTx.
Proof.
  destruct (hasura.reachable (store s)) eqn:Hr.
  - rewrite (UpsertOnramperTransaction_run _ _ _ Hr). simpl.
    pose proof (UpsertFiatTransaction_stored (fixtures.row_of userID onrampTx) (store s))
      as Hst.
    simpl in Hst. rewrite Hst. clear Hst.
    unfold hasura.UpsertFiatTransaction. simpl.
    destruct (hasura.fiat_transactions (store s) !! models.TransactionID onrampTx)
      as [old|]; simpl.
    + destruct (String.eqb_spec (hasura.user_id old) ""); [discriminate|].
      intros [= <-]. eexists. repeat split; auto.
    + destruct (String.eqb_spec userID ""); [discriminate|].
      intros [= <-]. eexists. repeat split; auto.
  - rewrite (UpsertOnramperTransaction_down _ _ _ Hr). discriminate.
Qed.

(** X12: the owner of a transaction is set once: if the ledger already holds
    the transaction, the call returns the stored owner and keeps it, whatever
    user id the caller passes; if it does not, the transaction is recorded
    for the caller. *)
Theorem UpsertOnramperTransaction_owner (onrampTx : models.WebhookPayload)
    (userID : string) (s : State) :
  hasura.reachable (store s) = true ->
  (forall old,
     hasura.fiat_transactions (store s) !! models.TransactionID onrampTx = Some old ->
     hasura.user_id old <> "" ->
     fst (UpsertOnramperTransaction onrampTx userID s) = (hasura.user_id old, None))
  /\ (hasura.fiat_transactions (store s) !! models.TransactionID onrampTx = None ->
      userID <> "" ->
      fst (UpsertOnramperTransaction onrampTx userID s) = (userID, None)).
Proof.
  intros Hr. rewrite (UpsertOnramperTransaction_run _ _ _ Hr). simpl.
  unfold hasura.UpsertFiatTransaction. simpl. split.
  - intros old -> Hne. simpl. by apply String.eqb_neq in Hne as ->.
  - intros -> Hne. simpl. by apply String.eqb_neq in Hne as ->.
Qed.

(** X13: delivering the same payload twice leaves the store as delivering it
    once: one row under the transaction id, with the same contents. *)
Theorem UpsertOnramperTransaction_idempotent (onrampTx : models.WebhookPayload)
    (userID : string) (s : State) :
  store (snd (UpsertOnramperTransaction onrampTx userID
                (snd (UpsertOnramperTransaction onrampTx userID s))))
  = store (snd (UpsertOnramperTransaction onrampTx userID s)).
Proof.
  destruct (hasura.reachable (store s)) eqn:Hr.
  - rewrite (UpsertOnramperTransaction_run _ _ s Hr). simpl.
    rewrite UpsertOnramperTransaction_run by done. simpl.
    unfold hasura.UpsertFiatTransaction, hasura.set_fiat_transactions. simpl.
    rewrite lookup_insert_eq, insert_insert_eq. f_equal. f_equal.
    by destruct (hasura.fiat_transactions (store s) !! models.TransactionID onrampTx).
  - rewrite (UpsertOnramperTransaction_down _ _ s Hr). simpl.
    by rewrite UpsertOnramperTransaction_down.
Qed.

(** X14: an upsert touches the row of its own transaction id only: the rows
    of the other transactions and all verification records are as
    before. *)
Theorem UpsertOnramperTransaction_frame (onrampTx : models.WebhookPayload)
    (userID : string) (s : State) (k : string) :
  k <> models.TransactionID onrampTx ->
  hasura.fiat_transactions (store (snd (UpsertOnramperTransaction onrampTx userID s))) !! k
  = hasura.fiat_transactions (store s) !! k
  /\ hasura.id_verification_sessions
       (store (snd (UpsertOnramperTransaction onrampTx userID s)))
     = hasura.id_verification_sessions (store s).
Proof.
  intros Hk. destruct (hasura.reachable (store s)) eqn:Hr.
  - rewrite (UpsertOnramperTransaction_run _ _ s Hr). simpl.
    split; [|done]. by apply lookup_insert_ne.
  - by rewrite (UpsertOnramperTransaction_down _ _ s Hr).
Qed.

Lemma UpsertOnramperTransaction_stores_payload_witness :
  fst (UpsertOnramperTransaction (fixtures.payload_of "pending" "TX42") "another-user"
         (onramper.start fixtures.store_tx42)) = (fixtures.user, None)
  /\ exists row,
       hasura.fiat_transactions
         (store (snd (UpsertOnramperTransaction (fixtures.payload_of "pending" "TX42")
                        "another-user" (onramper.start fixtures.store_tx42))))
         !! models.TransactionID (fixtures.payload_of "pending" "TX42") = Some row
       /\ hasura.user_id row = fixtures.user
       /\ fixtures.user <> ""
       /\ hasura.transaction_status row = models.Status (fixtures.payload_of "pending" "TX42")
       /\ hasura.transaction_type row
          = strings.ToUpper (models.TransactionType (fixtures.payload_of "pending" "TX42"))
       /\ hasura.onramp_transaction_id row
          = models.OnrampTransactionID (fixtures.payload_of "pending" "TX42")
       /\ hasura.wallet_address row
          = models.WalletAddress (fixtures.payload_of "pending" "TX42").
Proof.
  assert (H : fst (UpsertOnramperTransaction (fixtures.payload_of "pending" "TX42")
                     "another-user" (onramper.start fixtures.store_tx42))
              = (fixtures.user, None)) by (vm_compute; reflexivity).
  split; [exact H|].
  exact (UpsertOnramperTransaction_stores_payload _ _ _ _ H).
Defined.

Lemma UpsertOnramperTransaction_owner_witness :
  hasura.reachable (store (onramper.start fixtures.empty_store)) = true
  /\ hasura.fiat_transactions (store (onramper.start fixtures.empty_store))
       !! models.TransactionID (fixtures.payload_of "new" "TX42") = None
  /\ fixtures.user <> ""
  /\ fst (UpsertOnramperTransaction (fixtures.payload_of "new" "TX42") fixtures.user
            (onramper.start fixtures.empty_store)) = (fixtures.user, None).
Proof.
  assert (H1 : hasura.reachable (store (onramper.start fixtures.empty_store)) = true)
    by reflexivity.
  assert (H2 : hasura.fiat_transactions (store (onramper.start fixtures.empty_store))
                 !! models.TransactionID (fixtures.payload_of "new" "TX42") = None)
    by (vm_compute; reflexivity).
  assert (H3 : fixtures.user <> "") by discriminate.
  split; [exact H1|]. split; [exact H2|]. split; [exact H3|].
  exact (proj2 (UpsertOnramperTransaction_owner (fixtures.payload_of "new" "TX42")
                  fixtures.user (onramper.start fixtures.empty_store) H1) H2 H3).
Defined.

Lemma UpsertOnramperTransaction_frame_witness :
  "TX42" <> models.TransactionID (fixtures.payload_of "pending" "TX43")
  /\ hasura.fiat_transactions
       (store (snd (UpsertOnramperTransaction (fixtures.payload_of "pending" "TX43")
                      fixtures.user (onramper.start fixtures.store_tx42)))) !! "TX42"
     = hasura.fiat_transactions (store (onramper.start fixtures.store_tx42)) !! "TX42".
Proof.
  assert (H : "TX42" <> models.TransactionID (fixtures.payload_of "pending" "TX43"))
    by discriminate.
  split; [exact H|].
  exact (proj1 (UpsertOnramperTransaction_frame (fixtures.payload_of "pending" "TX43")
                  fixtures.user (onramper.start fixtures.store_tx42) "TX42" H)).
Defined.

(** X15: a lookup never resolves a user.  The query asks for a list of
    rows and the answer is decoded into a struct, so a request that is
    executed ends at [unable to execute Query], whatever the ledger holds,
    and one that is not ends at [failed to query the database]; the user id
    returned is empty, one request is made and the store is as before.  In
    particular a transaction that was just recorded is not found again by
    its id. *)
Theorem GetUserIDFromTransaction_never_resolves
    (transactionID onrampTxID walletAddress : string) (s : State) :
  GetUserIDFromTransaction transactionID onrampTxID walletAddress s
  = (("", Some (if hasura.reachable (store s) then "unable to execute Query"
                else "failed to query the database")),
     {| store := store s; writer := writer s;
        trace := trace s ++ [EvExecRaw "GetUserIDFromTransaction"] |})
  /\ forall (onrampTx : models.WebhookPayload) (userID : string),
       fst (GetUserIDFromTransaction (models.TransactionID onrampTx) onrampTxID
              walletAddress (snd (UpsertOnramperTransaction onrampTx userID s)))
       = ("", Some (if hasura.reachable (store s) then "unable to execute Query"
                    else "failed to query the database")).
Proof.
  split; [apply GetUserIDFromTransaction_run|].
  intros onrampTx userID. rewrite GetUserIDFromTransaction_run. simpl.
  destruct (hasura.reachable (store s)) eqn:Hr.
  - rewrite (UpsertOnramperTransaction_run _ _ s Hr). simpl. by rewrite Hr.
  - rewrite (UpsertOnramperTransaction_down _ _ s Hr). simpl. by rewrite Hr.
Qed.

End Ledger.

(** * Verification records: [UpdateKYCStatus] and [HandleKYCWebhook] *)

Section Verification.

Import database onramper.

Lemma UpdateKYCStatus_run userID newStatus s :
  hasura.reachable (store s) = true ->
  UpdateKYCStatus userID newStatus s
  = (let answer := default "" (snd (hasura.UpsertKYCStatus userID newStatus (store s))) in
     if String.eqb answer "" then
       ((newStatus, Some "empty status in response"),
        {| store := fst (hasura.UpsertKYCStatus userID newStatus (store s));
           writer := writer s;
           trace := trace s ++ [EvExecRaw "UpsertKYCStatus"] |})
     else
       ((answer, None),
        {| store := fst (hasura.UpsertKYCStatus userID newStatus (store s));
           writer := writer s;
           trace := trace s ++ [EvExecRaw "UpsertKYCStatus";
                                EvLog "debug" "KYC operation processed"] |})).
Proof.
  intros Hr. unfold UpdateKYCStatus. run_monad. rewrite Hr.
  destruct (hasura.UpsertKYCStatus userID newStatus (store s)) as [st' [r|]]; simpl.
  - destruct (String.eqb r ""); simpl; [reflexivity|]. by rewrite <- app_assoc.
  - reflexivity.
Qed.

(** X18: for a user whose stored state is [APPROVED] the call does not
    return the stored state: it fails with [empty status in response] and
    hands back the state it was asked to write, and the store is as
    before. *)
Theorem UpdateKYCStatus_suppressed_is_an_error (userID newStatus : string) (s : State) :
  hasura.reachable (store s) = true ->
  hasura.id_verification_sessions (store s) !! userID = Some "APPROVED" ->
  UpdateKYCStatus userID newStatus s
  = ((newStatus, Some "empty status in response"),
     {| store := store s; writer := writer s;
        trace := trace s ++ [EvExecRaw "UpsertKYCStatus"] |}).
Proof.
  intros Hr Ha. rewrite (UpdateKYCStatus_run _ _ _ Hr).
  by rewrite (UpsertKYCStatus_approved _ _ _ Ha).
Qed.

Lemma UpdateKYCStatus_suppressed_is_an_error_witness :
  hasura.reachable (store (start fixtures.store_approved)) = true
  /\ hasura.id_verification_sessions (store (start fixtures.store_approved))
       !! fixtures.user = Some "APPROVED"
  /\ fst (UpdateKYCStatus fixtures.user "APPROVED" (start fixtures.store_approved))
     = ("APPROVED", Some "empty status in response").
Proof.
  assert (H1 : hasura.reachable (store (start fixtures.store_approved)) = true)
    by reflexivity.
  assert (H2 : hasura.id_verification_sessions (store (start fixtures.store_approved))
                 !! fixtures.user = Some "APPROVED") by (vm_compute; reflexivity).
  split; [exact H1|]. split; [exact H2|].
  exact (f_equal fst (UpdateKYCStatus_suppressed_is_an_error fixtures.user "APPROVED"
                        (start fixtures.store_approved) H1 H2)).
Defined.

(** X19: when [UpdateKYCStatus] returns without error, the status it returns
    is the one it was given, that status is now the stored one, and the
    user was not [APPROVED] before the call. *)
Theorem UpdateKYCStatus_success (userID newStatus result : string) (s : State) :
  fst (UpdateKYCStatus userID newStatus s) = (result, None) ->
  result = newStatus
  /\ hasura.id_verification_sessions (store (snd (UpdateKYCStatus userID newStatus s)))
       !! userID = Some newStatus
  /\ hasura.id_verification_sessions (store s) !! userID <> Some "APPROVED".
Proof.
  destruct (hasura.reachable (store s)) eqn:Hr.
  - rewrite (UpdateKYCStatus_run _ _ _ Hr).
    destruct (decide (hasura.id_verification_sessions (store s) !! userID
                      = Some "APPROVED")) as [Ha|Hn].
    + by rewrite (UpsertKYCStatus_approved _ _ _ Ha).
    + pose proof (UpsertKYCStatus_not_approved userID newStatus (store s) Hn) as Hst.
      unfold hasura.UpsertKYCStatus in *.
      destruct (hasura.id_verification_sessions (store s) !! userID) as [old|] eqn:E.
      * destruct (String.eqb_spec old "APPROVED") as [->|Hne]; [done|]. simpl in *.
        destruct (String.eqb newStatus ""); simpl; [discriminate|].
        intros [= <-]. done.
      * simpl in *. destruct (String.eqb newStatus ""); simpl; [discriminate|].
        intros [= <-]. done.
  - unfold UpdateKYCStatus. run_monad. rewrite Hr. discriminate.
Qed.

Lemma UpdateKYCStatus_success_witness :
  fst (UpdateKYCStatus fixtures.user "PENDING" (start fixtures.store_tx42))
  = ("PENDING", None)
  /\ hasura.id_verification_sessions
       (store (snd (UpdateKYCStatus fixtures.user "PENDING" (start fixtures.store_tx42))))
       !! fixtures.user = Some "PENDING".
Proof.
  assert (H : fst (UpdateKYCStatus fixtures.user "PENDING" (start fixtures.store_tx42))
              = ("PENDING", None)) by (vm_compute; reflexivity).
  split; [exact H|].
  exact (proj1 (proj2 (UpdateKYCStatus_success fixtures.user "PENDING" "PENDING"
                         (start fixtures.store_tx42) H))).
Defined.

(** X20: [UpdateKYCStatus] writes the record of its own user only: the
    records of the other users and the whole ledger are as before. *)
Theorem UpdateKYCStatus_frame (userID newStatus other : string) (s : State) :
  other <> userID ->
  hasura.id_verification_sessions (store (snd (UpdateKYCStatus userID newStatus s)))
    !! other
  = hasura.id_verification_sessions (store s) !! other
  /\ hasura.fiat_transactions (store (snd (UpdateKYCStatus userID newStatus s)))
     = hasura.fiat_transactions (store s).
Proof.
  intros Hne. rewrite UpdateKYCStatus_store.
  destruct (hasura.reachable (store s)); [|done].
  unfold hasura.UpsertKYCStatus.
  destruct (hasura.id_verification_sessions (store s) !! userID) as [old|]; simpl.
  - destruct (String.eqb old "APPROVED"); simpl; [done|].
    split; [|done]. by apply lookup_insert_ne.
  - split; [|done]. by apply lookup_insert_ne.
Qed.

Lemma UpdateKYCStatus_frame_witness :
  "someone-else" <> fixtures.user
  /\ hasura.id_verification_sessions
       (store (snd (UpdateKYCStatus fixtures.user "PENDING" (start fixtures.store_tx42))))
       !! "someone-else"
     = hasura.id_verification_sessions (store (start fixtures.store_tx42))
         !! "someone-else".
Proof.
  assert (H : "someone-else" <> fixtures.user) by discriminate.
  split; [exact H|].
  exact (proj1 (UpdateKYCStatus_frame fixtures.user "PENDING" "someone-else"
                  (start fixtures.store_tx42) H)).
Defined.

(** X21: without a payload, or with a payload whose transaction id,
    processor id and wallet address are all empty or white space,
    [HandleKYCWebhook] fails before any request to the store. *)
Theorem HandleKYCWebhook_requires_an_identifier (p : models.WebhookPayload) (s : State) :
  HandleKYCWebhook None s = (("", Some "webhook payload cannot be nil"), s)
  /\ (strings.TrimSpace (models.TransactionID p) = "" ->
      strings.TrimSpace (models.OnrampTransactionID p) = "" ->
      strings.TrimSpace (models.WalletAddress p) = "" ->
      HandleKYCWebhook (Some p) s
      = (("", Some "transaction identifiers required"),
         {| store := store s; writer := writer s;
            trace := trace s
                     ++ [EvLog "error" "Missing transaction identifiers in webhook"] |})).
Proof.
  split; [reflexivity|]. intros H1 H2 H3.
  unfold HandleKYCWebhook. by rewrite H1, H2, H3.
Qed.

Lemma HandleKYCWebhook_requires_an_identifier_witness :
  strings.TrimSpace (models.TransactionID samples.event_blank) = ""
  /\ strings.TrimSpace (models.OnrampTransactionID samples.event_blank) = ""
  /\ strings.TrimSpace (models.WalletAddress samples.event_blank) = ""
  /\ fst (HandleKYCWebhook (Some samples.event_blank) (start fixtures.store_tx42))
     = ("", Some "transaction identifiers required").
Proof.
  split; [reflexivity|]. split; [reflexivity|]. split; [reflexivity|].
  exact (f_equal fst (proj2 (HandleKYCWebhook_requires_an_identifier samples.event_blank
                               (start fixtures.store_tx42)) eq_refl eq_refl eq_refl)).
Defined.

Section resolved_user.

Variables (p : models.WebhookPayload) (s : State).

Hypothesis identified :
  String.eqb (strings.TrimSpace (models.TransactionID p)) ""
  && String.eqb (strings.TrimSpace (models.OnrampTransactionID p)) ""
  && String.eqb (strings.TrimSpace (models.WalletAddress p)) "" = false.

Lemma HandleKYCWebhook_after_lookup :
  HandleKYCWebhook (Some p) s
  = (let looked := GetUserIDFromTransaction
                     (strings.TrimSpace (models.TransactionID p))
                     (strings.TrimSpace (models.OnrampTransactionID p))
                     (strings.TrimSpace (models.WalletAddress p)) s in
     let s1 := {| store := store s; writer := writer s;
                  trace := trace s ++ [EvExecRaw "GetUserIDFromTransaction"] |} in
     match snd (fst looked) with
     | Some e =>
         (Logger_Error "User resolution failed" ;;
          ret ("", Some ("user resolution failed: " +:+ e))) s1
     | None =>
         match kyc_of_status (strings.ToLower (strings.TrimSpace (models.Status p))) with
         | None =>
             (Logger_Warn "Unhandled transaction status" ;;
              ret ("", Some ("invalid status: " +:+ strings.TrimSpace (models.Status p)))) s1
         | Some newStatus =>
             ('(resultStatus, err) ← UpdateKYCStatus (fst (fst looked)) newStatus;
              match err with
              | Some e =>
                  Logger_Error "KYC status update failed" ;;
                  ret ("", Some ("kyc update failed: " +:+ e))
              | None =>
                  Logger_Info "KYC status updated" ;;
                  ret (resultStatus, None)
              end) s1
         end
     end).
Proof using identified.
  unfold HandleKYCWebhook. rewrite identified.
  unfold mbind at 1. unfold M_bind at 1.
  pose proof (GetUserIDFromTransaction_state
                (strings.TrimSpace (models.TransactionID p))
                (strings.TrimSpace (models.OnrampTransactionID p))
                (strings.TrimSpace (models.WalletAddress p)) s) as Hs.
  destruct (GetUserIDFromTransaction _ _ _ s) as [[u e] s1]. simpl in Hs. subst s1.
  destruct e; simpl; [reflexivity|]. by destruct (kyc_of_status _).
Qed.

End resolved_user.

(** What [HandleKYCWebhook] can do to the store: nothing, or the one upsert
    of a verification state. *)
Lemma HandleKYCWebhook_store p s :
  store (snd (HandleKYCWebhook p s)) = store s
  \/ exists u n,
       store (snd (HandleKYCWebhook p s)) = fst (hasura.UpsertKYCStatus u n (store s)).
Proof.
  destruct p as [p|]; [|by left].
  destruct (String.eqb (strings.TrimSpace (models.TransactionID p)) ""
            && String.eqb (strings.TrimSpace (models.OnrampTransactionID p)) ""
            && String.eqb (strings.TrimSpace (models.WalletAddress p)) "") eqn:Hid.
  { left. unfold HandleKYCWebhook. by rewrite Hid. }
  rewrite (HandleKYCWebhook_after_lookup p s Hid). cbv zeta.
  destruct (snd (fst (GetUserIDFromTransaction _ _ _ s))); [by left|].
  destruct (kyc_of_status _) as [n|]; [|by left].
  set (u := fst (fst (GetUserIDFromTransaction _ _ _ s))).
  set (s1 := {| store := store s; writer := writer s;
                trace := trace s ++ [EvExecRaw "GetUserIDFromTransaction"] |}).
  pose proof (UpdateKYCStatus_store u n s1) as Hu.
  unfold mbind, M_bind.
  destruct (UpdateKYCStatus u n s1) as [[r e] s2]. simpl in Hu.
  assert (Hgoal : store s2 = store s
                  \/ exists u n, store s2 = fst (hasura.UpsertKYCStatus u n (store s))).
  { rewrite Hu. destruct (hasura.reachable (store s)); eauto. }
  destruct e; exact Hgoal.
Qed.

(** X22: when the lookup of the user fails, as it does with
    [unable to execute Query] on a store that answers and with
    [failed to query the database] on one that does not, [HandleKYCWebhook]
    fails with the error of the lookup behind [user resolution failed], the
    store is unchanged and no verification state is sent: the lookup is the
    only request made. *)
Theorem HandleKYCWebhook_unresolved (p : models.WebhookPayload) (s : State) (e : string) :
  String.eqb (strings.TrimSpace (models.TransactionID p)) ""
  && String.eqb (strings.TrimSpace (models.OnrampTransactionID p)) ""
  && String.eqb (strings.TrimSpace (models.WalletAddress p)) "" = false ->
  snd (fst (GetUserIDFromTransaction
              (strings.TrimSpace (models.TransactionID p))
              (strings.TrimSpace (models.OnrampTransactionID p))
              (strings.TrimSpace (models.WalletAddress p)) s)) = Some e ->
  HandleKYCWebhook (Some p) s
  = (("", Some ("user resolution failed: " +:+ e)),
     {| store := store s; writer := writer s;
        trace := trace s ++ [EvExecRaw "GetUserIDFromTransaction";
                             EvLog "error" "User resolution failed"] |}).
Proof.
  intros Hid He. rewrite (HandleKYCWebhook_after_lookup p s Hid). simpl.
  rewrite He. run_monad. by rewrite <- app_assoc.
Qed.

Lemma HandleKYCWebhook_unresolved_witness :
  String.eqb (strings.TrimSpace (models.TransactionID fixtures.event_padded)) ""
  && String.eqb (strings.TrimSpace (models.OnrampTransactionID fixtures.event_padded)) ""
  && String.eqb (strings.TrimSpace (models.WalletAddress fixtures.event_padded)) "" = false
  /\ snd (fst (GetUserIDFromTransaction
                 (strings.TrimSpace (models.TransactionID fixtures.event_padded))
                 (strings.TrimSpace (models.OnrampTransactionID fixtures.event_padded))
                 (strings.TrimSpace (models.WalletAddress fixtures.event_padded))
                 (start fixtures.store_tx42))) = Some "unable to execute Query"
  /\ fst (HandleKYCWebhook (Some fixtures.event_padded) (start fixtures.store_tx42))
     = ("", Some "user resolution failed: unable to execute Query").
Proof.
  assert (H1 : String.eqb (strings.TrimSpace (models.TransactionID fixtures.event_padded)) ""
               && String.eqb (strings.TrimSpace (models.OnrampTransactionID fixtures.event_padded)) ""
               && String.eqb (strings.TrimSpace (models.WalletAddress fixtures.event_padded)) ""
               = false) by (vm_compute; reflexivity).
  assert (H2 : snd (fst (GetUserIDFromTransaction
                 (strings.TrimSpace (models.TransactionID fixtures.event_padded))
                 (strings.TrimSpace (models.OnrampTransactionID fixtures.event_padded))
                 (strings.TrimSpace (models.WalletAddress fixtures.event_padded))
                 (start fixtures.store_tx42))) = Some "unable to execute Query")
    by (vm_compute; reflexivity).
  split; [exact H1|]. split; [exact H2|].
  exact (f_equal fst (HandleKYCWebhook_unresolved fixtures.event_padded
                        (start fixtures.store_tx42) "unable to execute Query" H1 H2)).
Defined.

End Verification.

(** * Sequences of calls *)

Section Sequences.

Import database onramper.

Lemma UpsertOnramperTransaction_store p u s :
  store (snd (UpsertOnramperTransaction p u s))
  = if hasura.reachable (store s)
    then fst (hasura.UpsertFiatTransaction (fixtures.row_of u p) (store s))
    else store s.
Proof.
  destruct (hasura.reachable (store s)) eqn:Hr.
  - by rewrite (UpsertOnramperTransaction_run _ _ _ Hr).
  - by rewrite (UpsertOnramperTransaction_down _ _ _ Hr).
Qed.

(** Every call leaves the store alone or applies one of the two upserts of
    the engine to it. *)
Lemma step_store o s :
  store (session.step o s) = store s
  \/ (exists object, store (session.step o s)
                     = fst (hasura.UpsertFiatTransaction object (store s)))
  \/ (exists u n, store (session.step o s) = fst (hasura.UpsertKYCStatus u n (store s))).
Proof.
  destruct o as [p u|t o w|u n|p|p]; simpl.
  - rewrite UpsertOnramperTransaction_store.
    destruct (hasura.reachable (store s)); eauto.
  - left. by rewrite GetUserIDFromTransaction_state.
  - rewrite UpdateKYCStatus_store. destruct (hasura.reachable (store s)); eauto.
  - by left.
  - destruct (HandleKYCWebhook_store p s) as [H|H]; eauto.
Qed.

Section preserved.

(** A relation between the store before and the store after that is
    reflexive and transitive and that both upserts of the engine respect
    holds across every sequence of calls. *)
Variable R : hasura.Store -> hasura.Store -> Prop.
Hypothesis R_refl : forall st, R st st.
Hypothesis R_trans : forall a b c, R a b -> R b c -> R a c.
Hypothesis R_ledger : forall object st, R st (fst (hasura.UpsertFiatTransaction object st)).
Hypothesis R_kyc : forall u n st, R st (fst (hasura.UpsertKYCStatus u n st)).

Lemma run_preserves ops : forall s, R (store s) (store (session.run ops s)).
Proof using R_refl R_trans R_ledger R_kyc.
  induction ops as [|o ops IH]; intros s; simpl; [apply R_refl|].
  apply R_trans with (store (session.step o s)); [|apply IH].
  destruct (step_store o s) as [->|[[object ->]|(u & n & ->)]]; auto.
Qed.

End preserved.

(** X25: across any sequence of calls of the database client and of the
    webhook functions, a user whose stored state is [APPROVED] stays
    [APPROVED]. *)
Theorem approved_for_good (ops : list session.Op) (s : State) (userID : string) :
  hasura.id_verification_sessions (store s) !! userID = Some "APPROVED" ->
  hasura.id_verification_sessions (store (session.run ops s)) !! userID = Some "APPROVED".
Proof.
  revert userID.
  apply (run_preserves
           (fun a b => forall u, hasura.id_verification_sessions a !! u = Some "APPROVED" ->
                                 hasura.id_verification_sessions b !! u = Some "APPROVED")).
  - auto.
  - auto.
  - intros object st u H. exact H.
  - intros u n st v H. unfold hasura.UpsertKYCStatus.
    destruct (hasura.id_verification_sessions st !! u) as [old|] eqn:E; simpl.
    + destruct (String.eqb_spec old "APPROVED") as [->|Hne]; simpl; [done|].
      rewrite lookup_insert_ne; [done|]. intros ->. congruence.
    + rewrite lookup_insert_ne; [done|]. intros ->. congruence.
Qed.

Lemma approved_for_good_witness :
  hasura.id_verification_sessions (store (start fixtures.store_approved))
    !! fixtures.user = Some "APPROVED"
  /\ hasura.id_verification_sessions
       (store (session.run scenario.hostile_calls (start fixtures.store_approved)))
       !! fixtures.user = Some "APPROVED".
Proof.
  assert (H : hasura.id_verification_sessions (store (start fixtures.store_approved))
                !! fixtures.user = Some "APPROVED") by (vm_compute; reflexivity).
  split; [exact H|].
  exact (approved_for_good scenario.hostile_calls (start fixtures.store_approved)
           fixtures.user H).
Defined.

(** X26: across any sequence of calls, a transaction that is in the ledger
    stays in the ledger under the same id and keeps its owner. *)
Theorem owner_for_good (ops : list session.Op) (s : State) (k : string)
    (row : hasura.fiat_transaction) :
  hasura.fiat_transactions (store s) !! k = Some row ->
  exists row',
    hasura.fiat_transactions (store (session.run ops s)) !! k = Some row'
    /\ hasura.user_id row' = hasura.user_id row.
Proof.
  revert k row.
  apply (run_preserves
           (fun a b => forall k r, hasura.fiat_transactions a !! k = Some r ->
                         exists r', hasura.fiat_transactions b !! k = Some r'
                                    /\ hasura.user_id r' = hasura.user_id r)).
  - eauto.
  - intros a b c Hab Hbc k r H. destruct (Hab k r H) as (r1 & H1 & E1).
    destruct (Hbc k r1 H1) as (r2 & H2 & E2). exists r2. split; [done|congruence].
  - intros object st k r H. unfold hasura.UpsertFiatTransaction. simpl.
    destruct (decide (k = hasura.transaction_id object)) as [->|Hk].
    + rewrite lookup_insert_eq, H. simpl. eauto.
    + rewrite lookup_insert_ne by done. eauto.
  - intros u n st k r H. unfold hasura.UpsertKYCStatus.
    destruct (hasura.id_verification_sessions st !! u) as [old|]; simpl.
    + destruct (String.eqb old "APPROVED"); simpl; eauto.
    + eauto.
Qed.

Lemma owner_for_good_witness :
  hasura.fiat_transactions (store (start fixtures.store_approved)) !! "TX42"
  = Some (fixtures.row_of fixtures.user (fixtures.payload_of "new" "TX42"))
  /\ exists row',
       hasura.fiat_transactions
         (store (session.run scenario.hostile_calls (start fixtures.store_approved)))
         !! "TX42" = Some row'
       /\ hasura.user_id row'
          = hasura.user_id (fixtures.row_of fixtures.user (fixtures.payload_of "new" "TX42")).
Proof.
  assert (H : hasura.fiat_transactions (store (start fixtures.store_approved)) !! "TX42"
              = Some (fixtures.row_of fixtures.user (fixtures.payload_of "new" "TX42")))
    by (vm_compute; reflexivity).
  split; [exact H|].
  exact (owner_for_good scenario.hostile_calls (start fixtures.store_approved) "TX42" _ H).
Defined.

End Sequences.

(** * The checkout flow *)

Section Checkout.

Import checkout.

Variable api : InitiateTransactionRequest -> Message * error.
Variable now : models.Time.

(** X27: a checkout without [user_id], with a body that does not bind or
    without a wallet address is answered with 400 before anything else
    happens: no request is sent to the store and the store is unchanged. *)
Theorem InitiateTransaction_rejects_incomplete_request (dbClient_nil : bool)
    (req : Request) (db : hasura.Store) :
  Query_ req "user_id" = ""
  \/ snd (ShouldBindJSON req) <> None
  \/ Address (Wallet_ (fst (ShouldBindJSON req))) = "" ->
  gin.status (writer (serve api dbClient_nil now req db)) = 400
  /\ Forall (fun e => is_store_call e = false) (trace (serve api dbClient_nil now req db))
  /\ store (serve api dbClient_nil now req db) = db.
Proof.
  intros H. unfold serve, InitiateTransaction.
  destruct (String.eqb_spec (Query_ req "user_id") "") as [_|Hu].
  { simpl. repeat split; repeat constructor. }
  destruct (ShouldBindJSON req) as [payload [e|]]; simpl in *.
  { repeat split; repeat constructor. }
  destruct (String.eqb_spec (Address (Wallet_ payload)) "") as [_|Hw].
  { simpl. repeat split; repeat constructor. }
  exfalso. destruct H as [H|[H|H]]; auto.
Qed.

(** X28: when the upstream client fails, or when the manager has no
    database client, the checkout is answered with 500 and no request is
    sent to the store. *)
Theorem InitiateTransaction_upstream_failure (dbClient_nil : bool) (req : Request)
    (db : hasura.Store) (payload : InitiateTransactionRequest) :
  Query_ req "user_id" <> "" ->
  ShouldBindJSON req = (payload, None) ->
  Address (Wallet_ payload) <> "" ->
  snd (api payload) <> None \/ dbClient_nil = true ->
  gin.status (writer (serve api dbClient_nil now req db)) = 500
  /\ Forall (fun e => is_store_call e = false) (trace (serve api dbClient_nil now req db))
  /\ store (serve api dbClient_nil now req db) = db.
Proof.
  intros Hu Hb Hw H. unfold serve, InitiateTransaction.
  apply String.eqb_neq in Hu, Hw. rewrite Hu, Hb, Hw.
  destruct (api payload) as [response [e|]]; simpl in *.
  { repeat split; repeat constructor. }
  destruct H as [H|Hnil]; [done|]. rewrite Hnil.
  destruct (String.eqb (TransactionID (TransactionInformation_ response)) ""); simpl;
    repeat split; repeat constructor.
Qed.

Section accepted.

Variables (req : Request) (db : hasura.Store) (payload : InitiateTransactionRequest)
          (response : Message).

Hypothesis has_user : Query_ req "user_id" <> "".
Hypothesis bound : ShouldBindJSON req = (payload, None).
Hypothesis has_wallet : Address (Wallet_ payload) <> "".
Hypothesis answered : api payload = (response, None).
Hypothesis has_id : TransactionID (TransactionInformation_ response) <> "".

(** An accepted checkout reaches the upsert. *)
Lemma InitiateTransaction_reaches_upsert :
  serve api false now req db
  = snd (('(returnedUserID, err) ←
            database.UpsertOnramperTransaction (onrampTx_of response now)
                                               (Query_ req "user_id");
          if err is Some _ then
            Logger_Error "Failed to insert transaction" ;;
            c_JSON 500 [("Error", "Failed to save transaction")]
          else
            (if negb (String.eqb returnedUserID (Query_ req "user_id")) then
               Logger_Warn "User ID mismatch after upsert"
             else ret tt) ;;
            Logger_Info "Transaction initiated successfully" ;;
            c_JSON 200 [("status", Status response);
                        ("transaction_id", TransactionID (TransactionInformation_ response));
                        ("user_id", Query_ req "user_id");
                        ("redirect_url", URL (TransactionInformation_ response))])
           (onramper.start db)).
Proof using has_user bound has_wallet answered has_id.
  unfold serve, InitiateTransaction.
  apply String.eqb_neq in has_user, has_wallet, has_id.
  rewrite has_user, bound, has_wallet, answered. cbv zeta. rewrite has_id.
  reflexivity.
Qed.

Lemma InitiateTransaction_first_time :
  hasura.reachable db = true ->
  hasura.fiat_transactions db !! TransactionID (TransactionInformation_ response) = None ->
  gin.status (writer (serve api false now req db)) = 200
  /\ gin.body (writer (serve api false now req db))
     = [[("status", Status response);
         ("transaction_id", TransactionID (TransactionInformation_ response));
         ("user_id", Query_ req "user_id");
         ("redirect_url", URL (TransactionInformation_ response))]]
  /\ exists row,
       hasura.fiat_transactions (store (serve api false now req db))
         !! TransactionID (TransactionInformation_ response) = Some row
       /\ hasura.user_id row = Query_ req "user_id"
       /\ hasura.transaction_status row = utils.MapTransactionStatus (Status response)
       /\ hasura.wallet_address row = Address (sWallet (SessionInformation_ response)).
Proof using has_user bound has_wallet answered has_id.
  intros Hr Hnew. rewrite InitiateTransaction_reaches_upsert.
  unfold mbind, M_bind. rewrite UpsertOnramperTransaction_run by done.
  simpl. unfold hasura.UpsertFiatTransaction. simpl. rewrite Hnew. simpl.
  pose proof has_user as Hu. apply String.eqb_neq in Hu. rewrite Hu.
  rewrite String.eqb_refl. simpl.
  split; [reflexivity|]. split; [reflexivity|].
  rewrite lookup_insert_eq. eexists. repeat split.
Qed.

Lemma InitiateTransaction_other_owner old :
  hasura.reachable db = true ->
  hasura.fiat_transactions db !! TransactionID (TransactionInformation_ response)
  = Some old ->
  hasura.user_id old <> "" ->
  hasura.user_id old <> Query_ req "user_id" ->
  gin.status (writer (serve api false now req db)) = 200
  /\ In ("user_id", Query_ req "user_id")
        (concat (gin.body (writer (serve api false now req db))))
  /\ In (EvLog "warn" "User ID mismatch after upsert") (trace (serve api false now req db))
  /\ exists row,
       hasura.fiat_transactions (store (serve api false now req db))
         !! TransactionID (TransactionInformation_ response) = Some row
       /\ hasura.user_id row = hasura.user_id old.
Proof using has_user bound has_wallet answered has_id.
  intros Hr Hold Hne Hdiff. rewrite InitiateTransaction_reaches_upsert.
  unfold mbind, M_bind. rewrite UpsertOnramperTransaction_run by done.
  simpl. unfold hasura.UpsertFiatTransaction. simpl. rewrite Hold. simpl.
  apply String.eqb_neq in Hne, Hdiff. rewrite Hne, Hdiff. simpl.
  split; [reflexivity|]. split; [auto|]. split; [auto 6|].
  rewrite lookup_insert_eq. eexists. split; reflexivity.
Qed.

End accepted.

(** X29: a complete checkout for a transaction that the ledger does not
    hold yet is answered with 200 and the status as the upstream client gave
    it, while the ledger receives a row for the caller whose status is the
    canonical one that [MapTransactionStatus] gives. *)
Theorem InitiateTransaction_records_canonical_status (req : Request) (db : hasura.Store)
    (payload : InitiateTransactionRequest) (response : Message) :
  Query_ req "user_id" <> "" ->
  ShouldBindJSON req = (payload, None) ->
  Address (Wallet_ payload) <> "" ->
  api payload = (response, None) ->
  TransactionID (TransactionInformation_ response) <> "" ->
  hasura.reachable db = true ->
  hasura.fiat_transactions db !! TransactionID (TransactionInformation_ response) = None ->
  gin.status (writer (serve api false now req db)) = 200
  /\ gin.body (writer (serve api false now req db))
     = [[("status", Status response);
         ("transaction_id", TransactionID (TransactionInformation_ response));
         ("user_id", Query_ req "user_id");
         ("redirect_url", URL (TransactionInformation_ response))]]
  /\ exists row,
       hasura.fiat_transactions (store (serve api false now req db))
         !! TransactionID (TransactionInformation_ response) = Some row
       /\ hasura.user_id row = Query_ req "user_id"
       /\ hasura.transaction_status row = utils.MapTransactionStatus (Status response)
       /\ hasura.wallet_address row = Address (sWallet (SessionInformation_ response)).
Proof. apply InitiateTransaction_first_time. Qed.

(** X30: a complete checkout for a transaction that the ledger holds for
    another user is answered with 200 and the user id of the caller, with a
    warning in the log, while the row in the ledger keeps its owner. *)
Theorem InitiateTransaction_keeps_other_owner (req : Request) (db : hasura.Store)
    (payload : InitiateTransactionRequest) (response : Message)
    (old : hasura.fiat_transaction) :
  Query_ req "user_id" <> "" ->
  ShouldBindJSON req = (payload, None) ->
  Address (Wallet_ payload) <> "" ->
  api payload = (response, None) ->
  TransactionID (TransactionInformation_ response) <> "" ->
  hasura.reachable db = true ->
  hasura.fiat_transactions db !! TransactionID (TransactionInformation_ response)
  = Some old ->
  hasura.user_id old <> "" ->
  hasura.user_id old <> Query_ req "user_id" ->
  gin.status (writer (serve api false now req db)) = 200
  /\ In ("user_id", Query_ req "user_id")
        (concat (gin.body (writer (serve api false now req db))))
  /\ In (EvLog "warn" "User ID mismatch after upsert") (trace (serve api false now req db))
  /\ exists row,
       hasura.fiat_transactions (store (serve api false now req db))
         !! TransactionID (TransactionInformation_ response) = Some row
       /\ hasura.user_id row = hasura.user_id old.
Proof. intros. by eapply InitiateTransaction_other_owner. Qed.

End Checkout.

Lemma InitiateTransaction_rejects_incomplete_request_witness :
  (checkout.Query_ checkout_samples.anonymous "user_id" = ""
   \/ snd (checkout.ShouldBindJSON checkout_samples.anonymous) <> None
   \/ checkout.Address (checkout.Wallet_ (fst (checkout.ShouldBindJSON
                                                 checkout_samples.anonymous))) = "")
  /\ gin.status (writer (checkout.serve checkout_samples.api false 0
                           checkout_samples.anonymous fixtures.empty_store)) = 400.
Proof.
  assert (H : checkout.Query_ checkout_samples.anonymous "user_id" = ""
              \/ snd (checkout.ShouldBindJSON checkout_samples.anonymous) <> None
              \/ checkout.Address (checkout.Wallet_ (fst (checkout.ShouldBindJSON
                                                            checkout_samples.anonymous)))
                 = "") by (left; reflexivity).
  split; [exact H|].
  exact (proj1 (InitiateTransaction_rejects_incomplete_request checkout_samples.api 0
                  false checkout_samples.anonymous fixtures.empty_store H)).
Defined.

Lemma InitiateTransaction_upstream_failure_witness :
  checkout.Query_ (checkout_samples.request_of fixtures.user) "user_id" <> ""
  /\ checkout.ShouldBindJSON (checkout_samples.request_of fixtures.user)
     = (checkout_samples.intent, None)
  /\ checkout.Address (checkout.Wallet_ checkout_samples.intent) <> ""
  /\ (snd (checkout_samples.api_down checkout_samples.intent) <> None \/ false = true)
  /\ gin.status (writer (checkout.serve checkout_samples.api_down false 0
                           (checkout_samples.request_of fixtures.user)
                           fixtures.empty_store)) = 500.
Proof.
  assert (H1 : checkout.Query_ (checkout_samples.request_of fixtures.user) "user_id" <> "")
    by (vm_compute; discriminate).
  assert (H2 : checkout.ShouldBindJSON (checkout_samples.request_of fixtures.user)
               = (checkout_samples.intent, None)) by reflexivity.
  assert (H3 : checkout.Address (checkout.Wallet_ checkout_samples.intent) <> "")
    by (vm_compute; discriminate).
  assert (H4 : snd (checkout_samples.api_down checkout_samples.intent) <> None
               \/ false = true) by (left; vm_compute; discriminate).
  split; [exact H1|]. split; [exact H2|]. split; [exact H3|]. split; [exact H4|].
  exact (proj1 (InitiateTransaction_upstream_failure checkout_samples.api_down 0 false
                  (checkout_samples.request_of fixtures.user) fixtures.empty_store
                  checkout_samples.intent H1 H2 H3 H4)).
Defined.

Lemma InitiateTransaction_records_canonical_status_witness :
  checkout.Query_ (checkout_samples.request_of fixtures.user) "user_id" <> ""
  /\ checkout.ShouldBindJSON (checkout_samples.request_of fixtures.user)
     = (checkout_samples.intent, None)
  /\ checkout.Address (checkout.Wallet_ checkout_samples.intent) <> ""
  /\ checkout_samples.api checkout_samples.intent
     = (fst (checkout_samples.api checkout_samples.intent), None)
  /\ checkout.TransactionID
       (checkout.TransactionInformation_ (fst (checkout_samples.api checkout_samples.intent)))
     <> ""
  /\ hasura.reachable fixtures.empty_store = true
  /\ hasura.fiat_transactions fixtures.empty_store
       !! checkout.TransactionID
            (checkout.TransactionInformation_
               (fst (checkout_samples.api checkout_samples.intent))) = None
  /\ gin.status (writer (checkout.serve checkout_samples.api false 0
                           (checkout_samples.request_of fixtures.user)
                           fixtures.empty_store)) = 200.
Proof.
  assert (H1 : checkout.Query_ (checkout_samples.request_of fixtures.user) "user_id" <> "")
    by (vm_compute; discriminate).
  assert (H2 : checkout.ShouldBindJSON (checkout_samples.request_of fixtures.user)
               = (checkout_samples.intent, None)) by reflexivity.
  assert (H3 : checkout.Address (checkout.Wallet_ checkout_samples.intent) <> "")
    by (vm_compute; discriminate).
  assert (H4 : checkout_samples.api checkout_samples.intent
               = (fst (checkout_samples.api checkout_samples.intent), None))
    by reflexivity.
  assert (H5 : checkout.TransactionID
                 (checkout.TransactionInformation_
                    (fst (checkout_samples.api checkout_samples.intent))) <> "")
    by (vm_compute; discriminate).
  assert (H6 : hasura.reachable fixtures.empty_store = true) by reflexivity.
  assert (H7 : hasura.fiat_transactions fixtures.empty_store
                 !! checkout.TransactionID
                      (checkout.TransactionInformation_
                         (fst (checkout_samples.api checkout_samples.intent))) = None)
    by (vm_compute; reflexivity).
  split; [exact H1|]. split; [exact H2|]. split; [exact H3|]. split; [exact H4|].
  split; [exact H5|]. split; [exact H6|]. split; [exact H7|].
  exact (proj1 (InitiateTransaction_records_canonical_status checkout_samples.api 0
                  (checkout_samples.request_of fixtures.user) fixtures.empty_store
                  checkout_samples.intent
                  (fst (checkout_samples.api checkout_samples.intent))
                  H1 H2 H3 H4 H5 H6 H7)).
Defined.

Lemma InitiateTransaction_keeps_other_owner_witness :
  checkout.Query_ (checkout_samples.request_of checkout_samples.other_user) "user_id" <> ""
  /\ checkout.ShouldBindJSON (checkout_samples.request_of checkout_samples.other_user)
     = (checkout_samples.intent, None)
  /\ checkout.Address (checkout.Wallet_ checkout_samples.intent) <> ""
  /\ checkout_samples.api checkout_samples.intent
     = (fst (checkout_samples.api checkout_samples.intent), None)
  /\ checkout.TransactionID
       (checkout.TransactionInformation_ (fst (checkout_samples.api checkout_samples.intent)))
     <> ""
  /\ hasura.reachable fixtures.store_tx42 = true
  /\ hasura.fiat_transactions fixtures.store_tx42
       !! checkout.TransactionID
            (checkout.TransactionInformation_
               (fst (checkout_samples.api checkout_samples.intent)))
     = Some (fixtures.row_of fixtures.user (fixtures.payload_of "new" "TX42"))
  /\ hasura.user_id (fixtures.row_of fixtures.user (fixtures.payload_of "new" "TX42")) <> ""
  /\ hasura.user_id (fixtures.row_of fixtures.user (fixtures.payload_of "new" "TX42"))
     <> checkout.Query_ (checkout_samples.request_of checkout_samples.other_user) "user_id"
  /\ gin.status (writer (checkout.serve checkout_samples.api false 0
                           (checkout_samples.request_of checkout_samples.other_user)
                           fixtures.store_tx42)) = 200.
Proof.
  assert (H1 : checkout.Query_ (checkout_samples.request_of checkout_samples.other_user)
                 "user_id" <> "") by (vm_compute; discriminate).
  assert (H2 : checkout.ShouldBindJSON
                 (checkout_samples.request_of checkout_samples.other_user)
               = (checkout_samples.intent, None)) by reflexivity.
  assert (H3 : checkout.Address (checkout.Wallet_ checkout_samples.intent) <> "")
    by (vm_compute; discriminate).
  assert (H4 : checkout_samples.api checkout_samples.intent
               = (fst (checkout_samples.api checkout_samples.intent), None))
    by reflexivity.
  assert (H5 : checkout.TransactionID
                 (checkout.TransactionInformation_
                    (fst (checkout_samples.api checkout_samples.intent))) <> "")
    by (vm_compute; discriminate).
  assert (H6 : hasura.reachable fixtures.store_tx42 = true) by reflexivity.
  assert (H7 : hasura.fiat_transactions fixtures.store_tx42
                 !! checkout.TransactionID
                      (checkout.TransactionInformation_
                         (fst (checkout_samples.api checkout_samples.intent)))
               = Some (fixtures.row_of fixtures.user (fixtures.payload_of "new" "TX42")))
    by (vm_compute; reflexivity).
  assert (H8 : hasura.user_id (fixtures.row_of fixtures.user
                                 (fixtures.payload_of "new" "TX42")) <> "")
    by (vm_compute; discriminate).
  assert (H9 : hasura.user_id (fixtures.row_of fixtures.user
                                 (fixtures.payload_of "new" "TX42"))
               <> checkout.Query_ (checkout_samples.request_of checkout_samples.other_user)
                    "user_id") by (vm_compute; discriminate).
  split; [exact H1|]. split; [exact H2|]. split; [exact H3|]. split; [exact H4|].
  split; [exact H5|]. split; [exact H6|]. split; [exact H7|]. split; [exact H8|].
  split; [exact H9|].
  exact (proj1 (InitiateTransaction_keeps_other_owner checkout_samples.api 0
                  (checkout_samples.request_of checkout_samples.other_user)
                  fixtures.store_tx42 checkout_samples.intent
                  (fst (checkout_samples.api checkout_samples.intent))
                  (fixtures.row_of fixtures.user (fixtures.payload_of "new" "TX42"))
                  H1 H2 H3 H4 H5 H6 H7 H8 H9)).
Defined.
